(** * The admission webhook handler of pkg/admission/admit/admit.go

    A shallow embedding of the admission-review pipeline.  The source file
    exists in two revisions that live side by side:

    - the controller revision, where [admissionController] keeps a list of
      registered [AdmitFunc]s and [doServeAdmitFunc] is one of its methods
      (module [Controller] below);
    - the single-function revision, where [doServeAdmitFunc] takes the one
      [AdmitFunc] as an argument and [AdmitFuncHandler] wraps it
      (module [Single] below).

    Both revisions share the types, the constants and [isKubeNamespace]; they
    are declared once, before the two modules.

    Modelling decisions, all of them about Go rather than about this program:

    - a Go [error] is [option string]: [None] is [nil], [Some m] is an error
      whose [Error()] text is [m];
    - a Go slice is [option (list A)]: [None] is the nil slice, [Some l] a
      non-nil slice (possibly of length zero).  encoding/json tells the two
      apart ([null] against [[]]), so the model does too;
    - the handler runs in a state-and-error monad.  The state holds the
      [http.ResponseWriter] and a trace of the calls that leave the handler:
      reading the body, the deserializer, every invocation of a registered
      function, the encoding of the patch and the final encoding of the
      review envelope;
    - the Kubernetes deserializer and the element level of encoding/json are
      library code; they are the methods of the class [Codec]. *)

From Stdlib Require Import ZArith String List.
From stdpp Require Import base option list strings pretty gmap.

Open Scope string_scope.
Open Scope list_scope.
Open Scope Z_scope.

(** ** Go values *)

Definition error := option string.

Definition slice (A : Type) := option (list A).

Definition elems {A} (s : slice A) : list A :=
  match s with
  | Some l => l
  | None => []
  end.

(** [append(s, xs...)]: with nothing to add the slice [s] itself comes back
    (a nil [s] stays nil); otherwise the result is a non-nil slice. *)
Definition append {A} (s xs : slice A) : slice A :=
  match elems xs with
  | [] => s
  | _ :: _ => Some (elems s ++ elems xs)
  end.

(** ** Constants *)

Definition jsonContentType : string := "application/json".

(** net/http *)
Definition MethodPost : string := "POST".
Definition StatusOK : Z := 200.
Definition StatusBadRequest : Z := 400.
Definition StatusMethodNotAllowed : Z := 405.
Definition StatusInternalServerError : Z := 500.

(** k8s.io/apimachinery/pkg/apis/meta/v1 *)
Definition NamespacePublic : string := "kube-public".
Definition NamespaceSystem : string := "kube-system".

(** k8s.io/api/admission/v1 *)
Definition PatchTypeJSONPatch : string := "JSONPatch".

(** ** Data model *)

(** A [[]byte]: [None] is the nil slice, [Some s] holds the bytes of [s]. *)
Definition bytes := option string.

(** [interface{}]: the dynamic value a patch operation carries.  [Chan] stands
    for the values encoding/json refuses. *)
Inductive any :=
| Nil
| Bool (b : bool)
| Int (z : Z)
| Str (s : string)
| Chan.

(** PatchOperation is an operation of a JSON patch (RFC 6902). *)
Record PatchOperation := {
  Op : string;
  Path : string;
  Value : any
}.

(** The Kubernetes types the handler touches, with the fields it reads or
    writes.  The record types carry their Go package as a prefix so that the
    fields can keep their Go names; the [UID] of the response is [RespUID],
    since Rocq has one name space for the projections of all records. *)
Record metaV1_TypeMeta := {
  Kind : string;
  APIVersion : string
}.

Record metaV1_Status := {
  Message : string
}.

Record admissionV1_AdmissionRequest := {
  UID : string;
  Name : string;
  Namespace : string;
  Operation : string;
  Object : string
}.

Record admissionV1_AdmissionResponse := {
  RespUID : string;
  Allowed : bool;
  Result : option metaV1_Status;
  Patch : bytes;
  PatchType : option string
}.

Record admissionV1_AdmissionReview := {
  TypeMeta : metaV1_TypeMeta;
  Request : option admissionV1_AdmissionRequest;
  Response : option admissionV1_AdmissionResponse
}.

(** The zero values of Go's [var x T]. *)
Definition zero_TypeMeta : metaV1_TypeMeta := {| Kind := ""; APIVersion := "" |}.

Definition zero_AdmissionReview : admissionV1_AdmissionReview :=
  {| TypeMeta := zero_TypeMeta; Request := None; Response := None |}.

(** AdmitFunc is a callback for admission controller logic.  Given an
    AdmissionRequest, it returns the sequence of patch operations to be
    applied in case of success, or the error that will be shown when the
    operation is rejected.  Go returns both values; the handler decides which
    one it looks at.  The function reads the request it is given: a function
    that writes through the pointer it receives is outside this model. *)
Definition AdmitFunc : Type :=
  admissionV1_AdmissionRequest -> slice PatchOperation * error.

(** isKubeNamespace checks if the given namespace is a Kubernetes-owned
    namespace. *)
Definition isKubeNamespace (ns : string) : bool :=
  bool_decide (ns = NamespacePublic) || bool_decide (ns = NamespaceSystem).

(** ** net/http *)

(** [http.Header] and its [Get]: the first value stored under the key, or the
    empty string.  (The key the handler asks for, Content-Type, is already in
    canonical form.) *)
Definition http_Header := gmap string (list string).

Definition Get (h : http_Header) (key : string) : string :=
  match h !! key with
  | Some (v :: _) => v
  | _ => ""
  end.

(** [http.Request], with the body as what [io.ReadAll] makes of it: the bytes
    read and the error of the read. *)
Record http_Request := {
  Method : string;
  Header : http_Header;
  Body : string * error
}.

(** [http.ResponseWriter]: the status line once it is written, and the body
    written so far.  The first [WriteHeader] wins, later calls are
    superfluous and change nothing; a [Write] before any [WriteHeader] sends
    200 first. *)
Record ResponseWriter := {
  status : option Z;
  written : string
}.

Definition freshWriter : ResponseWriter := {| status := None; written := "" |}.

Definition writeHeader (code : Z) (w : ResponseWriter) : ResponseWriter :=
  match status w with
  | Some _ => w
  | None => {| status := Some code; written := written w |}
  end.

Definition write (b : string) (w : ResponseWriter) : ResponseWriter :=
  let w' := writeHeader StatusOK w in
  {| status := status w'; written := written w' +:+ b |}.

(** ** The calls that leave the handler *)

(** [ReadBody] is [io.ReadAll(r.Body)], [Deserialize] the call of the
    deserializer on the bytes read, [Invoke i req] the call of the function
    registered at position [i], [EncodePatch] and [EncodeReview] the two
    calls of [json.Marshal], with the value each one is given. *)
Inductive event :=
| ReadBody
| Deserialize (body : string)
| Invoke (i : nat) (req : admissionV1_AdmissionRequest)
| EncodePatch (patchOps : slice PatchOperation)
| EncodeReview (review : admissionV1_AdmissionReview).

Record state := {
  w : ResponseWriter;
  trace : list event
}.

Definition start (rw : ResponseWriter) : state := {| w := rw; trace := [] |}.

(** ** The handler monad: state, and the error of an early [return nil, err] *)

Inductive result (A : Type) :=
| Ok (a : A)
| Err (msg : string).
Arguments Ok {A} a.
Arguments Err {A} msg.

Definition M (A : Type) : Type := state -> result A * state.

Definition ret {A} (a : A) : M A := fun st => (Ok a, st).

Definition fail {A} (msg : string) : M A := fun st => (Err msg, st).

Definition bind {A B} (m : M A) (k : A -> M B) : M B :=
  fun st =>
    match m st with
    | (Ok a, st') => k a st'
    | (Err msg, st') => (Err msg, st')
    end.

Declare Scope handler_scope.
Delimit Scope handler_scope with handler.
Notation "'let*' x ':=' m 'in' k" := (bind m (fun x => k))
  (at level 10, x pattern, m at level 100, k at level 200) : handler_scope.
Notation "m ;; k" := (bind m (fun _ => k))
  (at level 100, right associativity) : handler_scope.

Definition emit (e : event) : M unit :=
  fun st => (Ok tt, {| w := w st; trace := trace st ++ [e] |}).

Definition WriteHeader (code : Z) : M unit :=
  fun st => (Ok tt, {| w := writeHeader code (w st); trace := trace st |}).

Definition ReadAll (body : string * error) : M (string * error) :=
  (emit ReadBody ;; ret body)%handler.

Definition invoke (i : nat) (adm : AdmitFunc) (req : admissionV1_AdmissionRequest)
  : M (slice PatchOperation * error) :=
  (emit (Invoke i req) ;; ret (adm req))%handler.

(** ** Library code: the deserializer and encoding/json *)

(** [Decode body] is [UniversalDeserializer.Decode(body, nil, &review)]: the
    contents of [review] afterwards, and the error.  [MarshalOperation] is
    encoding/json on one [PatchOperation], [MarshalReview] on the review
    envelope. *)
Class Codec := {
  Decode : string -> admissionV1_AdmissionReview * error;
  MarshalOperation : PatchOperation -> string * error;
  MarshalReview : admissionV1_AdmissionReview -> string * error
}.

Section Handlers.
Context {codec : Codec}.

Definition deserialize (body : string) : M (admissionV1_AdmissionReview * error) :=
  (emit (Deserialize body) ;; ret (Decode body))%handler.

(** encoding/json on the elements of a slice, left to right; the first
    element that fails fails the whole encoding. *)
Fixpoint marshalElements (l : list PatchOperation) : list string * error :=
  match l with
  | [] => ([], None)
  | op :: rest =>
      match MarshalOperation op with
      | (_, Some e) => ([], Some e)
      | (s, None) =>
          match marshalElements rest with
          | (_, Some e) => ([], Some e)
          | (ss, None) => (s :: ss, None)
          end
      end
  end.

(** [json.Marshal(patchOps)]: a nil slice encodes as the JSON value null, any
    other slice as a JSON array. *)
Definition marshalPatch (patchOps : slice PatchOperation) : bytes * error :=
  match patchOps with
  | None => (Some "null", None)
  | Some l =>
      match marshalElements l with
      | (_, Some e) => (None, Some e)
      | (ss, None) => (Some ("[" +:+ String.concat "," ss +:+ "]"), None)
      end
  end.

Definition jsonMarshalPatch (patchOps : slice PatchOperation) : M (bytes * error) :=
  (emit (EncodePatch patchOps) ;; ret (marshalPatch patchOps))%handler.

Definition jsonMarshalReview (review : admissionV1_AdmissionReview) : M (string * error) :=
  (emit (EncodeReview review) ;; ret (MarshalReview review))%handler.

End Handlers.

(** ** The controller revision *)

Module Controller.

Record admissionController := {
  admitFuncs : list AdmitFunc
}.

Definition New : admissionController := {| admitFuncs := [] |}.

(** Register registers a new AdmitFunc at this controller. *)
Definition Register (name : string) (adm : AdmitFunc) (ac : admissionController)
  : admissionController :=
  {| admitFuncs := admitFuncs ac ++ [adm] |}.

Section WithCodec.
Context {codec : Codec}.
Open Scope handler_scope.

(** The loop over [ac.admitFuncs], from the function at index [i] on.  The
    loop body is
    [if patches, err := adm(req); err != nil { break } else { patchOps = append(patchOps, patches...) }]:
    [patches] and [err] are declared by the if statement and live in it
    only, so all the loop leaves behind is [patchOps]. *)
Fixpoint rangeAdmitFuncs (i : nat) (funcs : list AdmitFunc)
    (req : admissionV1_AdmissionRequest) (patchOps : slice PatchOperation)
  : M (slice PatchOperation) :=
  match funcs with
  | [] => ret patchOps
  | adm :: rest =>
      let* (patches, err) := invoke i adm req in
      match err with
      | Some _ => ret patchOps
      | None => rangeAdmitFuncs (S i) rest req (append patchOps patches)
      end
  end.

(** doServeAdmitFunc parses the HTTP request for an admission controller
    webhook, and -- in case of a well-formed request -- delegates the
    admission control logic to the registered functions.  The response body
    is then returned as raw bytes.  The writer [w] of the source is the
    writer of the state. *)
Definition doServeAdmitFunc (ac : admissionController) (r : http_Request) : M string :=
  (* Step 1: request validation *)
  if negb (bool_decide (Method r = MethodPost)) then
    WriteHeader StatusMethodNotAllowed ;;
    fail ("invalid method " +:+ Method r +:+ ", only POST requests are allowed")
  else
  let* (body, err) := ReadAll (Body r) in
  match err with
  | Some e =>
      WriteHeader StatusBadRequest ;;
      fail ("could not read request body: " +:+ e)
  | None =>
  let contentType := Get (Header r) "Content-Type" in
  if negb (bool_decide (contentType = jsonContentType)) then
    WriteHeader StatusBadRequest ;;
    fail ("unsupported content type " +:+ contentType +:+ ", only "
          +:+ jsonContentType +:+ " is supported")
  else
  (* Step 2: parse the AdmissionReview request *)
  let* (admissionReviewReq, err2) := deserialize body in
  match err2 with
  | Some e =>
      WriteHeader StatusBadRequest ;;
      fail ("could not deserialize request: " +:+ e)
  | None =>
  match Request admissionReviewReq with
  | None =>
      WriteHeader StatusBadRequest ;;
      fail "malformed admission review: request is nil"
  | Some request =>
  (* Step 3: construct the AdmissionReview response *)
  let response :=
    {| RespUID := UID request; Allowed := false; Result := None;
       Patch := None; PatchType := None |} in
  let* patchOps :=
    if negb (isKubeNamespace (Namespace request))
    then rangeAdmitFuncs 0 (admitFuncs ac) request None
    else ret None in
  let* response :=
    match err with
    | Some e =>
        ret {| RespUID := RespUID response; Allowed := false;
               Result := Some {| Message := e |};
               Patch := Patch response; PatchType := PatchType response |}
    | None =>
        let* (patchBytes, err3) := jsonMarshalPatch patchOps in
        match err3 with
        | Some e =>
            WriteHeader StatusInternalServerError ;;
            fail ("could not marshal JSON patch: " +:+ e)
        | None =>
            ret {| RespUID := RespUID response; Allowed := true;
                   Result := Result response;
                   Patch := patchBytes;
                   PatchType := Some PatchTypeJSONPatch |}
        end
    end in
  let admissionReviewResponse :=
    {| TypeMeta := TypeMeta admissionReviewReq;
       Request := Request admissionReviewReq;
       Response := Some response |} in
  (* Return the AdmissionReview with a response as JSON *)
  let* (bytes, err4) := jsonMarshalReview admissionReviewResponse in
  match err4 with
  | Some e => fail ("marshaling response: " +:+ e)
  | None => ret bytes
  end
  end end end.

(** ServeHTTP is a wrapper around doServeAdmitFunc that adds error handling
    and logging (the log lines are not modelled; a failed [w.Write] is only
    logged). *)
Definition ServeHTTP (ac : admissionController) (rw : ResponseWriter) (r : http_Request)
  : state :=
  match doServeAdmitFunc ac r (start rw) with
  | (Err msg, st) =>
      {| w := write msg (writeHeader StatusInternalServerError (w st));
         trace := trace st |}
  | (Ok bytes, st) =>
      {| w := write bytes (w st); trace := trace st |}
  end.

End WithCodec.
End Controller.

(** ** The single-function revision *)

Module Single.
Section WithCodec.
Context {codec : Codec}.
Open Scope handler_scope.

(** doServeAdmitFunc parses the HTTP request for an admission controller
    webhook, and -- in case of a well-formed request -- delegates the
    admission control logic to the given admitFunc.  The response body is
    then returned as raw bytes. *)
Definition doServeAdmitFunc (r : http_Request) (adm : AdmitFunc) : M string :=
  (* Step 1: request validation *)
  if negb (bool_decide (Method r = MethodPost)) then
    WriteHeader StatusMethodNotAllowed ;;
    fail ("invalid method " +:+ Method r +:+ ", only POST requests are allowed")
  else
  let* (body, err) := ReadAll (Body r) in
  match err with
  | Some e =>
      WriteHeader StatusBadRequest ;;
      fail ("could not read request body: " +:+ e)
  | None =>
  let contentType := Get (Header r) "Content-Type" in
  if negb (bool_decide (contentType = jsonContentType)) then
    WriteHeader StatusBadRequest ;;
    fail ("unsupported content type " +:+ contentType +:+ ", only "
          +:+ jsonContentType +:+ " is supported")
  else
  (* Step 2: parse the AdmissionReview request *)
  let* (admissionReviewReq, err2) := deserialize body in
  match err2 with
  | Some e =>
      WriteHeader StatusBadRequest ;;
      fail ("could not deserialize request: " +:+ e)
  | None =>
  match Request admissionReviewReq with
  | None =>
      WriteHeader StatusBadRequest ;;
      fail "malformed admission review: request is nil"
  | Some request =>
  (* Step 3: construct the AdmissionReview response *)
  let response :=
    {| RespUID := UID request; Allowed := false; Result := None;
       Patch := None; PatchType := None |} in
  (* [patchOps, err = adm(...)] assigns the function's own [err] *)
  let* (patchOps, err) :=
    if negb (isKubeNamespace (Namespace request))
    then invoke 0 adm request
    else ret (None, err) in
  let* response :=
    match err with
    | Some e =>
        ret {| RespUID := RespUID response; Allowed := false;
               Result := Some {| Message := e |};
               Patch := Patch response; PatchType := PatchType response |}
    | None =>
        let* (patchBytes, err3) := jsonMarshalPatch patchOps in
        match err3 with
        | Some e =>
            WriteHeader StatusInternalServerError ;;
            fail ("could not marshal JSON patch: " +:+ e)
        | None =>
            ret {| RespUID := RespUID response; Allowed := true;
                   Result := Result response;
                   Patch := patchBytes;
                   PatchType := PatchType response |}
        end
    end in
  let admissionReviewResponse :=
    {| TypeMeta := zero_TypeMeta; Request := None; Response := Some response |} in
  (* Return the AdmissionReview with a response as JSON *)
  let* (bytes, err4) := jsonMarshalReview admissionReviewResponse in
  match err4 with
  | Some e => fail ("marshaling response: " +:+ e)
  | None => ret bytes
  end
  end end end.

(** serveAdmitFunc is a wrapper around doServeAdmitFunc that adds error
    handling and logging. *)
Definition serveAdmitFunc (rw : ResponseWriter) (r : http_Request) (adm : AdmitFunc)
  : state :=
  match doServeAdmitFunc r adm (start rw) with
  | (Err msg, st) =>
      {| w := write msg (writeHeader StatusInternalServerError (w st));
         trace := trace st |}
  | (Ok bytes, st) =>
      {| w := write bytes (w st); trace := trace st |}
  end.

(** AdmitFuncHandler takes an admitFunc and wraps it into a http.Handler by
    means of calling serveAdmitFunc. *)
Definition AdmitFuncHandler (adm : AdmitFunc)
  : ResponseWriter -> http_Request -> state :=
  fun rw r => serveAdmitFunc rw r adm.

End WithCodec.
End Single.

(** ** Reading a run *)

(** The indices of the registered functions a trace invokes, in order. *)
Definition invocations (t : list event) : list nat :=
  omap (fun e => match e with Invoke i _ => Some i | _ => None end) t.

(** The review envelopes a trace hands to the encoder, and their responses. *)
Definition encoded (t : list event) : list admissionV1_AdmissionReview :=
  omap (fun e => match e with EncodeReview rv => Some rv | _ => None end) t.

Definition responses (t : list event) : list admissionV1_AdmissionResponse :=
  omap Response (encoded t).

(** The operation lists a trace hands to the encoder. *)
Definition patches (t : list event) : list (slice PatchOperation) :=
  omap (fun e => match e with EncodePatch ops => Some ops | _ => None end) t.

(** Whether a trace reads the request body. *)
Definition readsBody (t : list event) : bool :=
  existsb (fun e => match e with ReadBody => true | _ => false end) t.

(** A response carries a patch when the field survives [omitempty]: the byte
    slice is not empty. *)
Definition hasPatch (resp : admissionV1_AdmissionResponse) : bool :=
  match Patch resp with
  | Some s => negb (bool_decide (s = ""))
  | None => false
  end.

Definition hasDenial (resp : admissionV1_AdmissionResponse) : bool :=
  match Result resp with
  | Some _ => true
  | None => false
  end.

(** The invariant of the response: it is an allow, or a deny that comes with
    a denial message, and not both; and a patch never travels with a denial
    message. *)
Definition allowOrDeny (resp : admissionV1_AdmissionResponse) : bool :=
  xorb (Allowed resp) (negb (Allowed resp) && hasDenial resp)
  && negb (hasPatch resp && hasDenial resp).

(** A request that passes step 1 of [doServeAdmitFunc] with the body [body]. *)
Definition validated (r : http_Request) (body : string) : Prop :=
  Method r = MethodPost /\ Body r = (body, None) /\
  Get (Header r) "Content-Type" = jsonContentType.

(** What the loop of the controller comes to on [req]: how many registered
    functions it invokes (every function up to and including the first that
    fails), and the operations of the functions before that one. *)
Fixpoint invoked (funcs : list AdmitFunc) (req : admissionV1_AdmissionRequest) : nat :=
  match funcs with
  | [] => 0%nat
  | adm :: rest =>
      match snd (adm req) with
      | Some _ => 1%nat
      | None => S (invoked rest req)
      end
  end.

Fixpoint collected (funcs : list AdmitFunc) (req : admissionV1_AdmissionRequest)
    (acc : slice PatchOperation) : slice PatchOperation :=
  match funcs with
  | [] => acc
  | adm :: rest =>
      match snd (adm req) with
      | Some _ => acc
      | None => collected rest req (append acc (fst (adm req)))
      end
  end.

(** The events of invoking the functions at the indices [i, i + n). *)
Definition invokes (i n : nat) (req : admissionV1_AdmissionRequest) : list event :=
  map (fun j => Invoke j req) (seq i n).

(** The trace of a request that gets through steps 1 and 2: the body is
    read and deserialized, the first [n] registered functions are invoked on
    the inner request, and [tail] follows. *)
Definition served (body : string) (n : nat) (req : admissionV1_AdmissionRequest)
    (tail : list event) : list event :=
  [ReadBody; Deserialize body] ++ invokes 0 n req ++ tail.

(** ** What a run comes to, as plain functions *)

Section Outcomes.
Context {codec : Codec}.

(** The last step of both revisions: what the handler returns once the
    review envelope went to the encoder. *)
Definition encodeResult (review : admissionV1_AdmissionReview) : result string :=
  match MarshalReview review with
  | (_, Some e) => Err ("marshaling response: " +:+ e)
  | (bytes, None) => Ok bytes
  end.

(** The operations the controller has at hand after the namespace guard and
    the loop, and the number of registered functions it invoked for them. *)
Definition controllerPatchOps (ac : Controller.admissionController)
    (req : admissionV1_AdmissionRequest) : slice PatchOperation :=
  if isKubeNamespace (Namespace req) then None
  else collected (Controller.admitFuncs ac) req None.

Definition controllerInvoked (ac : Controller.admissionController)
    (req : admissionV1_AdmissionRequest) : nat :=
  if isKubeNamespace (Namespace req) then 0%nat
  else invoked (Controller.admitFuncs ac) req.

(** The same for the single-function revision: the values of [patchOps] and
    [err] after the namespace guard, and the invocation it logs. *)
Definition singleDecision (adm : AdmitFunc) (req : admissionV1_AdmissionRequest)
  : slice PatchOperation * error :=
  if isKubeNamespace (Namespace req) then (None, None) else adm req.

Definition singleInvoked (req : admissionV1_AdmissionRequest) : nat :=
  if isKubeNamespace (Namespace req) then 0%nat else 1%nat.

(** The review envelopes of the three ways out of step 3. *)
Definition controllerAllow (rv : admissionV1_AdmissionReview)
    (req : admissionV1_AdmissionRequest) (patchBytes : bytes)
  : admissionV1_AdmissionReview :=
  {| TypeMeta := TypeMeta rv; Request := Some req;
     Response := Some {| RespUID := UID req; Allowed := true; Result := None;
                         Patch := patchBytes;
                         PatchType := Some PatchTypeJSONPatch |} |}.

Definition singleAllow (req : admissionV1_AdmissionRequest) (patchBytes : bytes)
  : admissionV1_AdmissionReview :=
  {| TypeMeta := zero_TypeMeta; Request := None;
     Response := Some {| RespUID := UID req; Allowed := true; Result := None;
                         Patch := patchBytes; PatchType := None |} |}.

Definition singleDeny (req : admissionV1_AdmissionRequest) (msg : string)
  : admissionV1_AdmissionReview :=
  {| TypeMeta := zero_TypeMeta; Request := None;
     Response := Some {| RespUID := UID req; Allowed := false;
                         Result := Some {| Message := msg |};
                         Patch := None; PatchType := None |} |}.

(** The status step 1 and step 2 reject a request with: 405 for a method
    other than POST, 400 for everything else. *)
Definition rejection (r : http_Request) : Z :=
  if bool_decide (Method r = MethodPost) then StatusBadRequest
  else StatusMethodNotAllowed.

(** A body that does not deserialize, or deserializes to an envelope without
    its inner request. *)
Definition undecodable (body : string) : Prop :=
  snd (Decode body) <> None \/ Request (fst (Decode body)) = None.

(** A request that gets through steps 1 and 2 with the inner request [req]. *)
Definition decoded (r : http_Request) (body : string)
    (rv : admissionV1_AdmissionReview) (req : admissionV1_AdmissionRequest) : Prop :=
  validated r body /\ Decode body = (rv, None) /\ Request rv = Some req.

End Outcomes.

(** ** The start of the program *)

(** A sequence of [Register] calls on a controller, in the order of the
    list, each with the name the function is registered under. *)
Definition registerAll (l : list (string * AdmitFunc))
    (ac : Controller.admissionController) : Controller.admissionController :=
  fold_left (fun ac p => Controller.Register p.1 p.2 ac) l ac.

(** The operations the functions of a list return on a request, one list
    after the other. *)
Definition operations (funcs : list AdmitFunc)
    (req : admissionV1_AdmissionRequest) : list PatchOperation :=
  concat (map (fun adm : AdmitFunc => elems (fst (adm req))) funcs).

(** ** A concrete codec and concrete requests, to run the handlers on *)

Module Fixtures.

Definition review (uid ns : string) : admissionV1_AdmissionReview :=
  {| TypeMeta := {| Kind := "AdmissionReview"; APIVersion := "admission.k8s.io/v1" |};
     Request := Some {| UID := uid; Name := "web-0"; Namespace := ns;
                        Operation := "CREATE"; Object := "pod" |};
     Response := None |}.

(** The bodies the deserializer of the fixtures knows, by name. *)
Definition bodies : gmap string admissionV1_AdmissionReview :=
  <[ "review:default" := review "705ab4f5" "default" ]>
  (<[ "review:kube-system" := review "1c2d3e4f" "kube-system" ]>
  (<[ "review:kube-public" := review "9a8b7c6d" "kube-public" ]>
  (<[ "review:no-request" :=
        {| TypeMeta := {| Kind := "AdmissionReview"; APIVersion := "admission.k8s.io/v1" |};
           Request := None; Response := None |} ]> ∅))).

Definition render (v : any) : string * error :=
  match v with
  | Nil => ("", None)
  | Bool true => (",value:true", None)
  | Bool false => (",value:false", None)
  | Int z => (",value:" +:+ pretty z, None)
  | Str s => (",value:" +:+ s, None)
  | Chan => ("", Some "json: unsupported type: chan int")
  end.

Definition codec : Codec := {|
  Decode body :=
    match bodies !! body with
    | Some rv => (rv, None)
    | None => (zero_AdmissionReview, Some "couldn't get version/kind; json parse error")
    end;
  MarshalOperation op :=
    match render (Value op) with
    | (_, Some e) => ("", Some e)
    | (v, None) => ("{op:" +:+ Op op +:+ ",path:" +:+ Path op +:+ v +:+ "}", None)
    end;
  MarshalReview rv :=
    match Response rv with
    | Some resp =>
        ("{uid:" +:+ RespUID resp +:+ ",allowed:"
         +:+ (if Allowed resp then "true" else "false") +:+ "}", None)
    | None => ("{}", None)
    end
|}.

Definition defaultRequest : admissionV1_AdmissionRequest :=
  {| UID := "705ab4f5"; Name := "web-0"; Namespace := "default";
     Operation := "CREATE"; Object := "pod" |}.

Definition post (body : string) : http_Request :=
  {| Method := "POST";
     Header := {[ "Content-Type" := ["application/json"] ]};
     Body := (body, None) |}.

Definition opA : PatchOperation :=
  {| Op := "add"; Path := "/metadata/labels/injected"; Value := Str "true" |}.
Definition opB : PatchOperation :=
  {| Op := "remove"; Path := "/metadata/labels/legacy"; Value := Nil |}.

Definition addLabel : AdmitFunc := fun _ => (Some [opA], None).
Definition dropLabel : AdmitFunc := fun _ => (Some [opB], None).
Definition nothing : AdmitFunc := fun _ => (None, None).
Definition quota : AdmitFunc := fun _ => (None, Some "quota exceeded").

Definition get : http_Request :=
  {| Method := "GET"; Header := ∅; Body := ("", None) |}.

(** Three controllers, built the way the program builds them. *)
Definition quotaOnly : Controller.admissionController :=
  Controller.Register "quota" quota Controller.New.

Definition labelThenQuota : Controller.admissionController :=
  Controller.Register "drop-label" dropLabel
    (Controller.Register "quota" quota
       (Controller.Register "add-label" addLabel Controller.New)).


(** Requests that stop in step 1: a media type with a parameter, no
    Content-Type at all, and a body whose read breaks off. *)
Definition postAs (contentType : string) (body : string) : http_Request :=
  {| Method := "POST";
     Header := {[ "Content-Type" := [contentType] ]};
     Body := (body, None) |}.

Definition untyped (body : string) : http_Request :=
  {| Method := "POST"; Header := ∅; Body := (body, None) |}.

Definition truncated : http_Request :=
  {| Method := "POST";
     Header := {[ "Content-Type" := ["application/json"] ]};
     Body := ("review:def", Some "unexpected EOF") |}.

(** A function whose operation carries a value encoding/json refuses, and a
    function that returns operations next to its error. *)
Definition opChan : PatchOperation :=
  {| Op := "add"; Path := "/spec/done"; Value := Chan |}.

Definition leak : AdmitFunc := fun _ => (Some [opChan], None).
Definition both : AdmitFunc := fun _ => (Some [opA], Some "quota exceeded").

Definition labels : Controller.admissionController :=
  registerAll [("add-label", addLabel); ("drop-label", dropLabel)] Controller.New.

Definition labelThenLeak : Controller.admissionController :=
  registerAll [("add-label", addLabel); ("leak", leak)] Controller.New.

(** The codec of the fixtures with an encoder that refuses every review
    envelope. *)
Definition refusing : Codec := {|
  Decode := @Decode codec;
  MarshalOperation := @MarshalOperation codec;
  MarshalReview _ := ("", Some "json: error calling MarshalJSON for type runtime.RawExtension")
|}.

End Fixtures.


(** * Properties *)

(** ** The monad and the trace observers *)

Lemma invocations_app t1 t2 :
  invocations (t1 ++ t2) = invocations t1 ++ invocations t2.
Proof. unfold invocations. apply omap_app. Qed.

Lemma encoded_app t1 t2 : encoded (t1 ++ t2) = encoded t1 ++ encoded t2.
Proof. unfold encoded. apply omap_app. Qed.

Lemma invocations_invokes i n req : invocations (invokes i n req) = seq i n.
Proof.
  unfold invokes. revert i.
  induction n as [|n IH]; intros i; simpl; [reflexivity|].
  unfold invocations in *. simpl. f_equal. apply IH.
Qed.

Lemma encoded_invokes i n req : encoded (invokes i n req) = [].
Proof.
  unfold invokes. revert i.
  induction n as [|n IH]; intros i; simpl; [reflexivity|].
  unfold encoded in *. simpl. apply IH.
Qed.

Lemma invokes_S i n req :
  invokes i (S n) req = Invoke i req :: invokes (S i) n req.
Proof. reflexivity. Qed.

Lemma elem_of_invokes i n req j q :
  Invoke j q ∈ invokes i n req -> q = req /\ (i <= j < i + n)%nat.
Proof.
  unfold invokes. intros H.
  apply list_elem_of_fmap in H as (k & Heq & Hk).
  injection Heq as -> ->.
  apply elem_of_seq in Hk. split; [reflexivity | lia].
Qed.

Lemma elem_of_invocations i q t : Invoke i q ∈ t -> i ∈ invocations t.
Proof.
  intros H. unfold invocations.
  apply list_elem_of_omap. exists (Invoke i q). split; [exact H | reflexivity].
Qed.

Lemma patches_invokes i n req : patches (invokes i n req) = [].
Proof.
  unfold invokes. revert i.
  induction n as [|n IH]; intros i; simpl; [reflexivity|].
  unfold patches in *. simpl. apply IH.
Qed.

Lemma invocations_served body n req tail :
  invocations (served body n req tail) = seq 0 n ++ invocations tail.
Proof.
  unfold served. rewrite !invocations_app, invocations_invokes. reflexivity.
Qed.

Lemma encoded_served body n req tail :
  encoded (served body n req tail) = encoded tail.
Proof.
  unfold served. rewrite !encoded_app, encoded_invokes. reflexivity.
Qed.

Lemma responses_served body n req tail :
  responses (served body n req tail) = responses tail.
Proof. unfold responses. rewrite encoded_served. reflexivity. Qed.

Lemma patches_served body n req tail :
  patches (served body n req tail) = patches tail.
Proof.
  unfold served, patches. rewrite !omap_app.
  fold (patches (invokes 0 n req)). rewrite patches_invokes. reflexivity.
Qed.

Lemma elem_of_served_invoke body n req tail j q :
  Invoke j q ∈ served body n req tail ->
  (q = req /\ (j < n)%nat) \/ Invoke j q ∈ tail.
Proof.
  unfold served. rewrite !elem_of_app, !elem_of_cons.
  intros [[H | [H | H]] | [H | H]]; try discriminate.
  - by apply not_elem_of_nil in H.
  - left. apply elem_of_invokes in H. split; [tauto | lia].
  - right. exact H.
Qed.

(** ** The loop of the controller *)

Section Loop.
Context {codec : Codec}.

(** The loop never fails and never touches the writer; it invokes
    [invoked funcs req] functions, in order from index [i], and leaves
    [collected funcs req acc]. *)
Lemma rangeAdmitFuncs_run funcs : forall i req acc st,
  Controller.rangeAdmitFuncs i funcs req acc st =
  (Ok (collected funcs req acc),
   {| w := w st; trace := trace st ++ invokes i (invoked funcs req) req |}).
Proof.
  induction funcs as [|adm rest IH]; intros i req acc st.
  - simpl. unfold ret, invokes. simpl. rewrite app_nil_r. by destruct st.
  - simpl. unfold bind, invoke, emit, ret. simpl.
    destruct (adm req) as [patches [e|]] eqn:Hadm; simpl.
    + reflexivity.
    + rewrite IH. simpl. rewrite invokes_S, <- app_assoc. reflexivity.
Qed.

End Loop.

(** ** What a run of the handler comes to *)

Ltac run_handler :=
  unfold ReadAll, deserialize, jsonMarshalPatch, jsonMarshalReview, invoke,
    bind, emit, ret, fail, WriteHeader;
  cbn -[String.append marshalPatch].

(** Steps 1 and 2 are the same text in both revisions; so is the case
    analysis that follows them. *)
Ltac reject_cases r :=
  unfold rejection;
  case_bool_decide as Hm;
  [ destruct (Body r) as [body [e|]] eqn:Hb;
    [ right; run_handler; eexists _, _; repeat split; reflexivity
    | case (decide (Get (Header r) "Content-Type" = jsonContentType)) as [Hc|Hc];
      [ rewrite (bool_decide_eq_true_2 _ Hc);
        destruct (Decode body) as [rv [e|]] eqn:Hdec;
        [ right; run_handler; rewrite Hdec; eexists _, _; repeat split; reflexivity
        | destruct (Request rv) as [req|] eqn:Hreq;
          [ left; exists body, rv, req; repeat split; assumption
          | right; run_handler; rewrite Hdec, Hreq;
            eexists _, _; repeat split; reflexivity ] ]
      | rewrite (bool_decide_eq_false_2 _ Hc);
        right; run_handler; eexists _, _; repeat split; reflexivity ] ]
  | right; run_handler; eexists _, _; repeat split; reflexivity ].

Section Runs.
Context {codec : Codec}.

Lemma controller_run ac r rw body rv req :
  decoded r body rv req ->
  Controller.doServeAdmitFunc ac r (start rw) =
  let patchOps := controllerPatchOps ac req in
  let n := controllerInvoked ac req in
  match marshalPatch patchOps with
  | (_, Some e) =>
      (Err ("could not marshal JSON patch: " +:+ e),
       {| w := writeHeader StatusInternalServerError rw;
          trace := served body n req [EncodePatch patchOps] |})
  | (patchBytes, None) =>
      let review := controllerAllow rv req patchBytes in
      (encodeResult review,
       {| w := rw;
          trace := served body n req [EncodePatch patchOps; EncodeReview review] |})
  end.
Proof.
  intros ((Hm & Hb & Hc) & Hdec & Hreq).
  unfold Controller.doServeAdmitFunc.
  rewrite Hm, Hb, Hc.
  rewrite !bool_decide_eq_true_2 by reflexivity.
  run_handler.
  rewrite Hdec, Hreq.
  unfold controllerPatchOps, controllerInvoked, controllerAllow, encodeResult, served.
  destruct (isKubeNamespace (Namespace req)); cbn -[String.append marshalPatch].
  - destruct (marshalPatch None) as [pb [e|]]; [reflexivity|].
    destruct (MarshalReview _) as [bs [e|]]; reflexivity.
  - rewrite rangeAdmitFuncs_run. cbn -[String.append marshalPatch].
    destruct (marshalPatch _) as [pb [e|]]; [reflexivity|].
    destruct (MarshalReview _) as [bs [e|]];
      cbn -[String.append]; rewrite <- ?app_assoc; reflexivity.
Qed.

Lemma single_run r adm rw body rv req :
  decoded r body rv req ->
  Single.doServeAdmitFunc r adm (start rw) =
  let n := singleInvoked req in
  match singleDecision adm req with
  | (_, Some msg) =>
      let review := singleDeny req msg in
      (encodeResult review,
       {| w := rw; trace := served body n req [EncodeReview review] |})
  | (patchOps, None) =>
      match marshalPatch patchOps with
      | (_, Some e) =>
          (Err ("could not marshal JSON patch: " +:+ e),
           {| w := writeHeader StatusInternalServerError rw;
              trace := served body n req [EncodePatch patchOps] |})
      | (patchBytes, None) =>
          let review := singleAllow req patchBytes in
          (encodeResult review,
           {| w := rw;
              trace := served body n req [EncodePatch patchOps; EncodeReview review] |})
      end
  end.
Proof.
  intros ((Hm & Hb & Hc) & Hdec & Hreq).
  unfold Single.doServeAdmitFunc.
  rewrite Hm, Hb, Hc.
  rewrite !bool_decide_eq_true_2 by reflexivity.
  run_handler.
  rewrite Hdec, Hreq.
  unfold singleDecision, singleInvoked, singleDeny, singleAllow, encodeResult, served.
  destruct (isKubeNamespace (Namespace req)); cbn -[String.append marshalPatch].
  - destruct (marshalPatch None) as [pb [e|]]; [reflexivity|].
    destruct (MarshalReview _) as [bs [e|]]; reflexivity.
  - destruct (adm req) as [ops [msg|]]; cbn -[String.append marshalPatch].
    + destruct (MarshalReview _) as [bs [e|]]; reflexivity.
    + destruct (marshalPatch ops) as [pb [e|]]; [reflexivity|].
      destruct (MarshalReview _) as [bs [e|]]; reflexivity.
Qed.

(** Every request either gets through steps 1 and 2, or is rejected there:
    the handler returns an error, the writer got the rejection status, and
    nothing was invoked or encoded. *)
Lemma controller_cases ac r rw :
  (exists body rv req, decoded r body rv req)
  \/ (exists msg t,
        Controller.doServeAdmitFunc ac r (start rw) =
          (Err msg, {| w := writeHeader (rejection r) rw; trace := t |})
        /\ invocations t = [] /\ encoded t = [] /\ patches t = []
        /\ readsBody t = bool_decide (Method r = MethodPost)).
Proof.
  unfold decoded, validated, Controller.doServeAdmitFunc.
  reject_cases r.
Qed.

Lemma single_cases r adm rw :
  (exists body rv req, decoded r body rv req)
  \/ (exists msg t,
        Single.doServeAdmitFunc r adm (start rw) =
          (Err msg, {| w := writeHeader (rejection r) rw; trace := t |})
        /\ invocations t = [] /\ encoded t = [] /\ patches t = []
        /\ readsBody t = bool_decide (Method r = MethodPost)).
Proof.
  unfold decoded, validated, Single.doServeAdmitFunc.
  reject_cases r.
Qed.

End Runs.

(** ** The writer *)

Lemma status_writeHeader code rw :
  status rw = None -> status (writeHeader code rw) = Some code.
Proof. intros H. unfold writeHeader. rewrite H. reflexivity. Qed.

Lemma status_writeHeader_done code c rw :
  status rw = Some c -> writeHeader code rw = rw.
Proof. intros H. unfold writeHeader. rewrite H. reflexivity. Qed.

Lemma status_write b rw : status (write b rw) = status (writeHeader StatusOK rw).
Proof. reflexivity. Qed.

(** The status of an error answer is the one the handler set first; the 500
    of the wrapper comes too late to change it. *)
Lemma status_rejected code msg rw :
  status rw = None ->
  status (write msg (writeHeader StatusInternalServerError (writeHeader code rw)))
  = Some code.
Proof.
  intros H. rewrite status_write.
  pose proof (status_writeHeader code rw H) as Hc.
  rewrite (status_writeHeader_done StatusInternalServerError code _ Hc).
  rewrite (status_writeHeader_done StatusOK code _ Hc). exact Hc.
Qed.

(** ** Slices *)




(** ** How far the loop gets *)

(** A failing function at position [length pre] bounds the number of
    invocations, whatever the functions before it do. *)
Lemma invoked_upto_failure (pre : list AdmitFunc) (f : AdmitFunc) post req m :
  snd (f req) = Some m ->
  (invoked (pre ++ f :: post) req <= S (length pre))%nat.
Proof.
  intros Hf. induction pre as [|g pre IH]; simpl.
  - rewrite Hf. lia.
  - destruct (snd (g req)); lia.
Qed.

(** When the functions before it all succeed, the loop stops exactly there,
    with their operations. *)
Lemma invoked_first_failure (pre : list AdmitFunc) (f : AdmitFunc) post req m :
  Forall (fun g : AdmitFunc => snd (g req) = None) pre -> snd (f req) = Some m ->
  invoked (pre ++ f :: post) req = S (length pre).
Proof.
  intros Hpre Hf. induction Hpre as [|g pre Hg _ IH]; simpl.
  - rewrite Hf. reflexivity.
  - rewrite Hg, IH. reflexivity.
Qed.

Lemma collected_first_failure (pre : list AdmitFunc) (f : AdmitFunc) post req m :
  forall acc,
  Forall (fun g : AdmitFunc => snd (g req) = None) pre -> snd (f req) = Some m ->
  collected (pre ++ f :: post) req acc = collected pre req acc.
Proof.
  intros acc Hpre Hf. revert acc.
  induction Hpre as [|g pre Hg _ IH]; intros acc; simpl.
  - rewrite Hf. reflexivity.
  - rewrite Hg. apply IH.
Qed.

(** ** Requests that are turned away *)

Section Rejections.
Context {codec : Codec}.

Lemma decoded_is_post r body rv req : decoded r body rv req -> Method r = MethodPost.
Proof. intros ((Hm & _) & _). exact Hm. Qed.

Lemma decoded_not_undecodable r body rv req :
  decoded r body rv req -> ~ undecodable (fst (Body r)).
Proof.
  intros ((_ & Hb & _) & Hdec & Hreq) [Herr | Hnil];
    rewrite Hb in *; simpl in *; rewrite Hdec in *; simpl in *; congruence.
Qed.

Lemma rejection_not_post r :
  Method r <> MethodPost -> rejection r = StatusMethodNotAllowed.
Proof. intros H. unfold rejection. by rewrite bool_decide_eq_false_2. Qed.

Lemma rejection_post r : Method r = MethodPost -> rejection r = StatusBadRequest.
Proof. intros H. unfold rejection. by rewrite bool_decide_eq_true_2. Qed.

(** C7: a request whose method is not POST is answered with 405 Method Not
    Allowed; its body is never read and no decision function is invoked.
    This holds for the controller and for the single-function handler. *)
Theorem C7_method_not_allowed ac adm r rw :
  Method r <> MethodPost -> status rw = None ->
  (let st := Controller.ServeHTTP ac rw r in
   status (w st) = Some StatusMethodNotAllowed
   /\ readsBody (trace st) = false /\ invocations (trace st) = [])
  /\
  (let st := Single.AdmitFuncHandler adm rw r in
   status (w st) = Some StatusMethodNotAllowed
   /\ readsBody (trace st) = false /\ invocations (trace st) = []).
Proof.
  intros Hm Hrw. split.
  - destruct (controller_cases ac r rw)
      as [(body & rv & req & Hd) | (msg & t & Hrun & Hi & _ & _ & Hr)].
    + contradict Hm. exact (decoded_is_post _ _ _ _ Hd).
    + unfold Controller.ServeHTTP. rewrite Hrun. cbn [w trace].
      rewrite (rejection_not_post r Hm), status_rejected by exact Hrw.
      rewrite Hr, bool_decide_eq_false_2 by exact Hm. auto.
  - destruct (single_cases r adm rw)
      as [(body & rv & req & Hd) | (msg & t & Hrun & Hi & _ & _ & Hr)].
    + contradict Hm. exact (decoded_is_post _ _ _ _ Hd).
    + unfold Single.AdmitFuncHandler, Single.serveAdmitFunc. rewrite Hrun.
      cbn [w trace].
      rewrite (rejection_not_post r Hm), status_rejected by exact Hrw.
      rewrite Hr, bool_decide_eq_false_2 by exact Hm. auto.
Qed.

(** C8: a POST whose body does not deserialize, or deserializes to an
    envelope without its inner request, is answered with 400 Bad Request;
    no decision function runs and no response envelope is encoded.  This
    holds for the controller and for the single-function handler. *)
Theorem C8_undecodable_is_bad_request ac adm r rw :
  Method r = MethodPost -> undecodable (fst (Body r)) -> status rw = None ->
  (let st := Controller.ServeHTTP ac rw r in
   status (w st) = Some StatusBadRequest
   /\ invocations (trace st) = [] /\ encoded (trace st) = [])
  /\
  (let st := Single.AdmitFuncHandler adm rw r in
   status (w st) = Some StatusBadRequest
   /\ invocations (trace st) = [] /\ encoded (trace st) = []).
Proof.
  intros Hm Hun Hrw. split.
  - destruct (controller_cases ac r rw)
      as [(body & rv & req & Hd) | (msg & t & Hrun & Hi & He & _)].
    + contradict Hun. exact (decoded_not_undecodable _ _ _ _ Hd).
    + unfold Controller.ServeHTTP. rewrite Hrun. cbn [w trace].
      rewrite (rejection_post r Hm), status_rejected by exact Hrw. auto.
  - destruct (single_cases r adm rw)
      as [(body & rv & req & Hd) | (msg & t & Hrun & Hi & He & _)].
    + contradict Hun. exact (decoded_not_undecodable _ _ _ _ Hd).
    + unfold Single.AdmitFuncHandler, Single.serveAdmitFunc. rewrite Hrun.
      cbn [w trace].
      rewrite (rejection_post r Hm), status_rejected by exact Hrw. auto.
Qed.

End Rejections.

(** ** Requests that are served *)

Section Served.
Context {codec : Codec}.

Lemma isKubeNamespace_reserved ns :
  ns = NamespacePublic \/ ns = NamespaceSystem -> isKubeNamespace ns = true.
Proof.
  intros [-> | ->]; reflexivity.
Qed.

Lemma marshalPatch_nil : marshalPatch None = (Some "null", None).
Proof. reflexivity. Qed.


(** C3: for a request in one of the two reserved namespaces (kube-public,
    kube-system) no registered decision function is invoked, whatever the
    functions are; the operation list that is encoded is the nil list, and
    the one response is allowed=true with that empty patch.  The handler
    returns what the encoder makes of this envelope. *)
Theorem C3_protected_namespace_bypass ac adm r rw body rv req :
  decoded r body rv req ->
  Namespace req = NamespacePublic \/ Namespace req = NamespaceSystem ->
  (let out := Controller.doServeAdmitFunc ac r (start rw) in
   invocations (trace out.2) = []
   /\ patches (trace out.2) = [None]
   /\ exists review,
        encoded (trace out.2) = [review]
        /\ Response review =
             Some {| RespUID := UID req; Allowed := true; Result := None;
                     Patch := Some "null";
                     PatchType := Some PatchTypeJSONPatch |}
        /\ out.1 = encodeResult review)
  /\
  (let out := Single.doServeAdmitFunc r adm (start rw) in
   invocations (trace out.2) = []
   /\ patches (trace out.2) = [None]
   /\ exists review,
        encoded (trace out.2) = [review]
        /\ Response review =
             Some {| RespUID := UID req; Allowed := true; Result := None;
                     Patch := Some "null"; PatchType := None |}
        /\ out.1 = encodeResult review).
Proof.
  intros Hd Hns. apply isKubeNamespace_reserved in Hns. split.
  - rewrite (controller_run ac r rw body rv req Hd).
    unfold controllerPatchOps, controllerInvoked. rewrite Hns, marshalPatch_nil.
    cbn [fst snd trace].
    rewrite invocations_served, patches_served, encoded_served.
    repeat split. eexists. repeat split.
  - rewrite (single_run r adm rw body rv req Hd).
    unfold singleDecision, singleInvoked. rewrite Hns, marshalPatch_nil.
    cbn [fst snd trace].
    rewrite invocations_served, patches_served, encoded_served.
    repeat split. eexists. repeat split.
Qed.

(** Every invocation the controller makes is on the inner request, and at
    an index below [controllerInvoked]. *)
Lemma controller_invocation ac r rw body rv req j q :
  decoded r body rv req ->
  Invoke j q ∈ trace (Controller.doServeAdmitFunc ac r (start rw)).2 ->
  q = req /\ (j < controllerInvoked ac req)%nat.
Proof.
  intros Hd. rewrite (controller_run ac r rw body rv req Hd). cbn zeta.
  destruct (marshalPatch _) as [pb [e|]]; cbn [snd trace]; intros Hin;
    apply elem_of_served_invoke in Hin as [H | H]; try exact H;
    repeat (apply elem_of_cons in H as [H | H]; [discriminate|]);
    by apply not_elem_of_nil in H.
Qed.

(** C4: if the function registered at position [length pre] fails on a
    request, the controller invokes no function at a later position on that
    request: every invocation in the trace of the handler, for any HTTP
    request, has an index of at most [length pre]. *)
Theorem C4_no_invocation_after_failure ac r rw
    (pre : list AdmitFunc) (f : AdmitFunc) (post : list AdmitFunc) q m j :
  Controller.admitFuncs ac = pre ++ f :: post ->
  snd (f q) = Some m ->
  Invoke j q ∈ trace (Controller.doServeAdmitFunc ac r (start rw)).2 ->
  (j <= length pre)%nat.
Proof.
  intros Hfuncs Hf Hin.
  destruct (controller_cases ac r rw)
    as [(body & rv & req & Hd) | (msg & t & Hrun & Hi & _)].
  - apply (controller_invocation ac r rw body rv req j q Hd) in Hin as [-> Hj].
    unfold controllerInvoked in Hj.
    destruct (isKubeNamespace (Namespace req)); [lia|].
    rewrite Hfuncs in Hj.
    pose proof (invoked_upto_failure pre f post req m Hf). lia.
  - rewrite Hrun in Hin. cbn [snd trace] in Hin.
    apply elem_of_invocations in Hin. rewrite Hi in Hin.
    by apply not_elem_of_nil in Hin.
Qed.

End Served.

(** ** The responses *)

Section Responses.
Context {codec : Codec}.

(** The controller stops exactly at the first failure: with the functions
    before position [length pre] succeeding and the one at that position
    failing, the invocations are those of the positions [0 .. length pre],
    in order. *)
Lemma controller_invocations_first_failure ac r rw body rv req
    (pre : list AdmitFunc) (f : AdmitFunc) (post : list AdmitFunc) m :
  decoded r body rv req ->
  isKubeNamespace (Namespace req) = false ->
  Controller.admitFuncs ac = pre ++ f :: post ->
  Forall (fun g : AdmitFunc => snd (g req) = None) pre ->
  snd (f req) = Some m ->
  invocations (trace (Controller.doServeAdmitFunc ac r (start rw)).2)
  = seq 0 (S (length pre)).
Proof.
  intros Hd Hns Hfuncs Hpre Hf.
  rewrite (controller_run ac r rw body rv req Hd). cbn zeta.
  unfold controllerInvoked. rewrite Hns, Hfuncs.
  rewrite (invoked_first_failure pre f post req m Hpre Hf).
  destruct (marshalPatch _) as [pb [e|]]; cbn [snd trace];
    rewrite invocations_served; cbn [invocations omap list_omap];
    apply app_nil_r.
Qed.

(** The responses of the controller are all of one shape: allowed, with the
    patch type set, and without a denial message. *)
Lemma controller_responses ac r rw :
  Forall (fun resp => Allowed resp = true /\ Result resp = None
                      /\ PatchType resp = Some PatchTypeJSONPatch)
         (responses (trace (Controller.doServeAdmitFunc ac r (start rw)).2)).
Proof.
  destruct (controller_cases ac r rw)
    as [(body & rv & req & Hd) | (msg & t & Hrun & _ & He & _)].
  - rewrite (controller_run ac r rw body rv req Hd). cbn zeta.
    destruct (marshalPatch _) as [pb [e|]]; cbn [snd trace];
      rewrite responses_served; cbn.
    + constructor.
    + repeat constructor.
  - rewrite Hrun. cbn [snd trace]. unfold responses. rewrite He. constructor.
Qed.

(** The responses of the single-function handler are an allow without a
    denial message, or a deny with a denial message and no patch. *)
Lemma single_responses r adm rw :
  Forall (fun resp =>
            (Allowed resp = true /\ Result resp = None)
            \/ (Allowed resp = false /\ hasDenial resp = true /\ Patch resp = None))
         (responses (trace (Single.doServeAdmitFunc r adm (start rw)).2)).
Proof.
  destruct (single_cases r adm rw)
    as [(body & rv & req & Hd) | (msg & t & Hrun & _ & He & _)].
  - rewrite (single_run r adm rw body rv req Hd). cbn zeta.
    destruct (singleDecision adm req) as [ops [msg|]].
    + cbn [snd trace]. rewrite responses_served. cbn.
      constructor; [right; auto | constructor].
    + destruct (marshalPatch ops) as [pb [e|]]; cbn [snd trace];
        rewrite responses_served; cbn.
      * constructor.
      * constructor; [left; auto | constructor].
  - rewrite Hrun. cbn [snd trace]. unfold responses. rewrite He. constructor.
Qed.

Lemma allowOrDeny_allow resp :
  Allowed resp = true -> Result resp = None -> allowOrDeny resp = true.
Proof.
  intros Ha Hr. unfold allowOrDeny, hasDenial. rewrite Ha, Hr.
  cbn. by rewrite andb_false_r.
Qed.

Lemma allowOrDeny_deny resp :
  Allowed resp = false -> hasDenial resp = true -> Patch resp = None ->
  allowOrDeny resp = true.
Proof.
  intros Ha Hd Hp. unfold allowOrDeny, hasPatch. rewrite Ha, Hd, Hp.
  reflexivity.
Qed.

(** C6: every response either handler builds, for any request, is an allow
    without a denial message or a deny with one, never both; and no
    response carries a patch together with a denial message. *)
Theorem C6_allow_or_deny ac adm r rw :
  Forall (fun resp => allowOrDeny resp = true)
         (responses (trace (Controller.ServeHTTP ac rw r)))
  /\
  Forall (fun resp => allowOrDeny resp = true)
         (responses (trace (Single.AdmitFuncHandler adm rw r))).
Proof.
  split.
  - pose proof (controller_responses ac r rw) as H.
    unfold Controller.ServeHTTP.
    destruct (Controller.doServeAdmitFunc ac r (start rw)) as [[bs|msg] st];
      cbn [snd trace] in *;
      (eapply Forall_impl; [exact H|]);
      intros resp (Ha & Hr & _); by apply allowOrDeny_allow.
  - pose proof (single_responses r adm rw) as H.
    unfold Single.AdmitFuncHandler, Single.serveAdmitFunc.
    destruct (Single.doServeAdmitFunc r adm (start rw)) as [[bs|msg] st];
      cbn [snd trace] in *;
      (eapply Forall_impl; [exact H|]);
      intros resp [(Ha & Hr) | (Ha & Hd & Hp)];
      first [by apply allowOrDeny_allow | by apply allowOrDeny_deny].
Qed.

(** C9: once the request is decoded, the response that goes to the encoder
    carries the UID of the inbound request, in the allow and in the deny
    outcome alike.  The controller encodes one operation list; when
    encoding/json takes it, the one response is an allow with the UID of the
    request.  The single-function handler answers an error of its function
    with one response, a deny with the UID of the request; otherwise it
    encodes the list of the function, and when encoding/json takes it the
    one response is an allow with the UID of the request.  The one run
    without a response is the one where encoding/json refuses the list the
    handler hands it. *)
Theorem C9_uid_echo ac adm r rw body rv req :
  decoded r body rv req ->
  (let out := Controller.doServeAdmitFunc ac r (start rw) in
   exists ops,
     patches (trace out.2) = [ops]
     /\ match marshalPatch ops with
        | (_, Some e) =>
            out.1 = Err ("could not marshal JSON patch: " +:+ e)
            /\ responses (trace out.2) = []
        | (_, None) =>
            exists resp,
              responses (trace out.2) = [resp]
              /\ RespUID resp = UID req /\ Allowed resp = true
        end)
  /\
  (let out := Single.doServeAdmitFunc r adm (start rw) in
   match singleDecision adm req with
   | (_, Some msg) =>
       patches (trace out.2) = []
       /\ exists resp,
            responses (trace out.2) = [resp]
            /\ RespUID resp = UID req /\ Allowed resp = false
            /\ Result resp = Some {| Message := msg |}
   | (ops, None) =>
       patches (trace out.2) = [ops]
       /\ match marshalPatch ops with
          | (_, Some e) =>
              out.1 = Err ("could not marshal JSON patch: " +:+ e)
              /\ responses (trace out.2) = []
          | (_, None) =>
              exists resp,
                responses (trace out.2) = [resp]
                /\ RespUID resp = UID req /\ Allowed resp = true
          end
   end).
Proof.
  intros Hd. split.
  - rewrite (controller_run ac r rw body rv req Hd). cbn zeta.
    exists (controllerPatchOps ac req).
    destruct (marshalPatch _) as [pb [e|]]; cbn [fst snd trace];
      rewrite patches_served, responses_served.
    + repeat split.
    + split; [reflexivity|]. eexists. repeat split.
  - rewrite (single_run r adm rw body rv req Hd). cbn zeta.
    destruct (singleDecision adm req) as [ops [msg|]].
    + cbn [fst snd trace]. rewrite patches_served, responses_served.
      split; [reflexivity|]. eexists. repeat split.
    + destruct (marshalPatch ops) as [pb [e|]]; cbn [fst snd trace];
        rewrite patches_served, responses_served.
      * repeat split.
      * split; [reflexivity|]. eexists. repeat split.
Qed.

(** The rule the single-function handler follows when its function fails:
    the one response is a deny with the message of the function, and it
    carries no patch, whatever operations the function returned next to its
    error. *)
Lemma single_failure_denies r adm rw body rv req ops msg :
  decoded r body rv req ->
  isKubeNamespace (Namespace req) = false ->
  adm req = (ops, Some msg) ->
  responses (trace (Single.doServeAdmitFunc r adm (start rw)).2)
  = [{| RespUID := UID req; Allowed := false;
        Result := Some {| Message := msg |};
        Patch := None; PatchType := None |}].
Proof.
  intros Hd Hns Hadm.
  rewrite (single_run r adm rw body rv req Hd). cbn zeta.
  unfold singleDecision. rewrite Hns, Hadm. cbn [snd trace].
  rewrite responses_served. reflexivity.
Qed.

(** What the controller does instead: the [err] it tests after the loop is
    the one of [io.ReadAll], which is nil by then, so a failure in the loop
    only stops the loop.  The response is an allow, with the operations of
    the functions before the failing one as its patch. *)
Lemma controller_failure_allows ac r rw body rv req
    (pre : list AdmitFunc) (f : AdmitFunc) (post : list AdmitFunc) m patchBytes :
  decoded r body rv req ->
  isKubeNamespace (Namespace req) = false ->
  Controller.admitFuncs ac = pre ++ f :: post ->
  Forall (fun g : AdmitFunc => snd (g req) = None) pre ->
  snd (f req) = Some m ->
  marshalPatch (collected pre req None) = (patchBytes, None) ->
  let out := Controller.doServeAdmitFunc ac r (start rw) in
  patches (trace out.2) = [collected pre req None]
  /\ responses (trace out.2)
     = [{| RespUID := UID req; Allowed := true; Result := None;
           Patch := patchBytes; PatchType := Some PatchTypeJSONPatch |}].
Proof.
  intros Hd Hns Hfuncs Hpre Hf Hpatch.
  rewrite (controller_run ac r rw body rv req Hd). cbn zeta.
  unfold controllerPatchOps. rewrite Hns, Hfuncs.
  rewrite (collected_first_failure pre f post req m None Hpre Hf), Hpatch.
  cbn [snd trace]. rewrite patches_served, responses_served.
  split; reflexivity.
Qed.




End Responses.

(** ** Runs on concrete requests *)

Section Runs_on_fixtures.
Import Fixtures.
#[local] Existing Instance Fixtures.codec.

Lemma decoded_default :
  decoded (post "review:default") "review:default"
          (review "705ab4f5" "default") defaultRequest.
Proof. repeat split. Qed.

Lemma decoded_kube_system :
  decoded (post "review:kube-system") "review:kube-system"
          (review "1c2d3e4f" "kube-system")
          {| UID := "1c2d3e4f"; Name := "web-0"; Namespace := "kube-system";
             Operation := "CREATE"; Object := "pod" |}.
Proof. repeat split. Qed.

(** C1: the controller with the one function [quota], which fails with
    the message quota exceeded, on a request for the namespace default:
    the function is invoked and fails, and the response is allowed=true
    without a message, where the claim has allowed=false with the message
    of the function. *)
Theorem C1_controller_allows_failed_admission :
  let out := Controller.doServeAdmitFunc quotaOnly (post "review:default")
               (start freshWriter) in
  isKubeNamespace (Namespace defaultRequest) = false
  /\ quota defaultRequest = (None, Some "quota exceeded")
  /\ invocations (trace out.2) = [0%nat]
  /\ responses (trace out.2)
     = [{| RespUID := "705ab4f5"; Allowed := true; Result := None;
           Patch := Some "null"; PatchType := Some "JSONPatch" |}]
  /\ status (w (Controller.ServeHTTP quotaOnly freshWriter (post "review:default")))
     = Some StatusOK.
Proof. vm_compute. repeat split. Qed.

(** C2: the controller with [addLabel], [quota], [dropLabel] on a request
    for the namespace default: [quota] fails after [addLabel] contributed
    one operation, and the response carries that operation as its patch,
    where the claim has it discarded. *)
Theorem C2_controller_keeps_patch_after_failure :
  let out := Controller.doServeAdmitFunc labelThenQuota (post "review:default")
               (start freshWriter) in
  addLabel defaultRequest = (Some [opA], None)
  /\ quota defaultRequest = (None, Some "quota exceeded")
  /\ invocations (trace out.2) = [0%nat; 1%nat]
  /\ patches (trace out.2) = [Some [opA]]
  /\ responses (trace out.2)
     = [{| RespUID := "705ab4f5"; Allowed := true; Result := None;
           Patch := Some "[{op:add,path:/metadata/labels/injected,value:true}]";
           PatchType := Some "JSONPatch" |}].
Proof. vm_compute. repeat split. Qed.

(** C5: the single-function handler with [addLabel] on a request for the
    namespace default: the response carries a patch, and its patchType is
    not set, where the claim has it set to JSONPatch. *)
Theorem C5_single_patch_without_type :
  let out := Single.doServeAdmitFunc (post "review:default") addLabel
               (start freshWriter) in
  exists resp,
    responses (trace out.2) = [resp]
    /\ Allowed resp = true /\ hasPatch resp = true
    /\ Patch resp = Some "[{op:add,path:/metadata/labels/injected,value:true}]"
    /\ PatchType resp = None.
Proof. eexists. vm_compute. repeat split. Qed.


(** The theorems above, at concrete requests. *)

Lemma C3_protected_namespace_bypass_witness :
  let out := Controller.doServeAdmitFunc labelThenQuota (post "review:kube-system")
               (start freshWriter) in
  invocations (trace out.2) = []
  /\ patches (trace out.2) = [None]
  /\ exists review,
       encoded (trace out.2) = [review]
       /\ Response review =
            Some {| RespUID := "1c2d3e4f"; Allowed := true; Result := None;
                    Patch := Some "null";
                    PatchType := Some PatchTypeJSONPatch |}
       /\ out.1 = encodeResult review.
Proof.
  apply (C3_protected_namespace_bypass labelThenQuota quota
           (post "review:kube-system") freshWriter "review:kube-system"
           (review "1c2d3e4f" "kube-system") _ decoded_kube_system).
  right. reflexivity.
Defined.

Lemma C4_no_invocation_after_failure_witness :
  Invoke 1 defaultRequest
    ∈ trace (Controller.doServeAdmitFunc labelThenQuota (post "review:default")
               (start freshWriter)).2
  /\ (1 <= length [addLabel])%nat.
Proof.
  assert (Invoke 1 defaultRequest
            ∈ trace (Controller.doServeAdmitFunc labelThenQuota
                       (post "review:default") (start freshWriter)).2) as Hin.
  { vm_compute. do 3 apply list_elem_of_further. apply list_elem_of_here. }
  split; [exact Hin|].
  apply (C4_no_invocation_after_failure labelThenQuota (post "review:default")
           freshWriter [addLabel] quota [dropLabel] defaultRequest
           "quota exceeded" 1%nat).
  - reflexivity.
  - reflexivity.
  - exact Hin.
Defined.

Lemma C7_method_not_allowed_witness :
  let st := Controller.ServeHTTP quotaOnly freshWriter get in
  status (w st) = Some StatusMethodNotAllowed
  /\ readsBody (trace st) = false /\ invocations (trace st) = [].
Proof.
  apply (C7_method_not_allowed quotaOnly quota get freshWriter).
  - discriminate.
  - reflexivity.
Defined.

Lemma C8_undecodable_is_bad_request_witness :
  let st := Controller.ServeHTTP quotaOnly freshWriter (post "review:no-request") in
  status (w st) = Some StatusBadRequest
  /\ invocations (trace st) = [] /\ encoded (trace st) = [].
Proof.
  apply (C8_undecodable_is_bad_request quotaOnly quota
           (post "review:no-request") freshWriter).
  - reflexivity.
  - right. reflexivity.
  - reflexivity.
Defined.

Lemma C9_uid_echo_witness :
  (let out := Controller.doServeAdmitFunc labelThenQuota (post "review:default")
                (start freshWriter) in
   exists resp,
     responses (trace out.2) = [resp]
     /\ RespUID resp = "705ab4f5" /\ Allowed resp = true)
  /\
  (let out := Single.doServeAdmitFunc (post "review:default") quota
                (start freshWriter) in
   exists resp,
     responses (trace out.2) = [resp]
     /\ RespUID resp = "705ab4f5" /\ Allowed resp = false
     /\ Result resp = Some {| Message := "quota exceeded" |}).
Proof.
  destruct (C9_uid_echo labelThenQuota quota (post "review:default") freshWriter
              "review:default" (review "705ab4f5" "default") defaultRequest
              decoded_default) as [(ops & Hops & Hc) Hs].
  split.
  - injection Hops as <-. exact Hc.
  - exact (proj2 Hs).
Defined.


End Runs_on_fixtures.

(** * Further properties of the handlers *)

(** ** The writer, once more *)

(** What the wrapper makes of an error: the status the handler set stays,
    and the text of the error is the body. *)
Lemma write_rejected code msg rw :
  status rw = None ->
  write msg (writeHeader StatusInternalServerError (writeHeader code rw))
  = {| status := Some code; written := written rw +:+ msg |}.
Proof. intros H. unfold write, writeHeader. rewrite H. reflexivity. Qed.

Lemma write_failed msg rw :
  status rw = None ->
  write msg (writeHeader StatusInternalServerError rw)
  = {| status := Some StatusInternalServerError; written := written rw +:+ msg |}.
Proof. intros H. unfold write, writeHeader. rewrite H. reflexivity. Qed.

Lemma write_answered bytes rw :
  status rw = None ->
  write bytes rw = {| status := Some StatusOK; written := written rw +:+ bytes |}.
Proof. intros H. unfold write, writeHeader. rewrite H. reflexivity. Qed.

(** ** Step 1, past the method *)

Section Validation.
Context {codec : Codec}.

Lemma controller_content_type ac r st body :
  Method r = MethodPost -> Body r = (body, None) ->
  Get (Header r) "Content-Type" <> jsonContentType ->
  Controller.doServeAdmitFunc ac r st =
  (Err ("unsupported content type " +:+ Get (Header r) "Content-Type"
        +:+ ", only " +:+ jsonContentType +:+ " is supported"),
   {| w := writeHeader StatusBadRequest (w st); trace := trace st ++ [ReadBody] |}).
Proof.
  intros Hm Hb Hc. unfold Controller.doServeAdmitFunc.
  rewrite Hm, Hb, (bool_decide_eq_true_2 _ eq_refl), (bool_decide_eq_false_2 _ Hc).
  reflexivity.
Qed.

Lemma single_content_type r adm st body :
  Method r = MethodPost -> Body r = (body, None) ->
  Get (Header r) "Content-Type" <> jsonContentType ->
  Single.doServeAdmitFunc r adm st =
  (Err ("unsupported content type " +:+ Get (Header r) "Content-Type"
        +:+ ", only " +:+ jsonContentType +:+ " is supported"),
   {| w := writeHeader StatusBadRequest (w st); trace := trace st ++ [ReadBody] |}).
Proof.
  intros Hm Hb Hc. unfold Single.doServeAdmitFunc.
  rewrite Hm, Hb, (bool_decide_eq_true_2 _ eq_refl), (bool_decide_eq_false_2 _ Hc).
  reflexivity.
Qed.

(** X1: a POST whose Content-Type is not exactly application/json is
    answered with 400 and the text that names the offending type.  The body
    has been read by then, but it is not deserialized and nothing is invoked
    or encoded.  Both revisions. *)
Theorem X1_content_type_rejected ac adm r rw body :
  Method r = MethodPost -> Body r = (body, None) ->
  Get (Header r) "Content-Type" <> jsonContentType ->
  status rw = None ->
  let answer :=
    {| w := {| status := Some StatusBadRequest;
               written := written rw +:+ "unsupported content type "
                          +:+ Get (Header r) "Content-Type"
                          +:+ ", only application/json is supported" |};
       trace := [ReadBody] |} in
  Controller.ServeHTTP ac rw r = answer
  /\ Single.AdmitFuncHandler adm rw r = answer.
Proof.
  intros Hm Hb Hc Hrw. split.
  - unfold Controller.ServeHTTP.
    rewrite (controller_content_type ac r (start rw) body Hm Hb Hc).
    cbn [w trace start app]. by rewrite write_rejected.
  - unfold Single.AdmitFuncHandler, Single.serveAdmitFunc.
    rewrite (single_content_type r adm (start rw) body Hm Hb Hc).
    cbn [w trace start app]. by rewrite write_rejected.
Qed.

Lemma controller_unreadable ac r st body e :
  Method r = MethodPost -> Body r = (body, Some e) ->
  Controller.doServeAdmitFunc ac r st =
  (Err ("could not read request body: " +:+ e),
   {| w := writeHeader StatusBadRequest (w st); trace := trace st ++ [ReadBody] |}).
Proof.
  intros Hm Hb. unfold Controller.doServeAdmitFunc.
  rewrite Hm, Hb, (bool_decide_eq_true_2 _ eq_refl). reflexivity.
Qed.

Lemma single_unreadable r adm st body e :
  Method r = MethodPost -> Body r = (body, Some e) ->
  Single.doServeAdmitFunc r adm st =
  (Err ("could not read request body: " +:+ e),
   {| w := writeHeader StatusBadRequest (w st); trace := trace st ++ [ReadBody] |}).
Proof.
  intros Hm Hb. unfold Single.doServeAdmitFunc.
  rewrite Hm, Hb, (bool_decide_eq_true_2 _ eq_refl). reflexivity.
Qed.

(** X2: a POST whose body cannot be read to its end is answered with 400
    and the text of the read error, whatever its Content-Type and whatever
    bytes did arrive: they are not deserialized.  Both revisions. *)
Theorem X2_unreadable_body_rejected ac adm r rw body e :
  Method r = MethodPost -> Body r = (body, Some e) ->
  status rw = None ->
  let answer :=
    {| w := {| status := Some StatusBadRequest;
               written := written rw +:+ "could not read request body: " +:+ e |};
       trace := [ReadBody] |} in
  Controller.ServeHTTP ac rw r = answer
  /\ Single.AdmitFuncHandler adm rw r = answer.
Proof.
  intros Hm Hb Hrw. split.
  - unfold Controller.ServeHTTP.
    rewrite (controller_unreadable ac r (start rw) body e Hm Hb).
    cbn [w trace start app]. by rewrite write_rejected.
  - unfold Single.AdmitFuncHandler, Single.serveAdmitFunc.
    rewrite (single_unreadable r adm (start rw) body e Hm Hb).
    cbn [w trace start app]. by rewrite write_rejected.
Qed.

End Validation.

(** ** The two encoders *)

Lemma elem_of_patches ops t : EncodePatch ops ∈ t -> ops ∈ patches t.
Proof.
  intros H. unfold patches. apply list_elem_of_omap.
  exists (EncodePatch ops). split; [exact H | reflexivity].
Qed.

Lemma elem_of_encoded review t : EncodeReview review ∈ t -> review ∈ encoded t.
Proof.
  intros H. unfold encoded. apply list_elem_of_omap.
  exists (EncodeReview review). split; [exact H | reflexivity].
Qed.

Section Encoders.
Context {codec : Codec}.

Lemma controller_patch_encoded ac r rw ops :
  EncodePatch ops ∈ trace (Controller.doServeAdmitFunc ac r (start rw)).2 ->
  exists body rv req, decoded r body rv req /\ ops = controllerPatchOps ac req.
Proof.
  intros H. apply elem_of_patches in H.
  destruct (controller_cases ac r rw)
    as [(body & rv & req & Hd) | (msg & t & Hrun & _ & _ & Hp & _)].
  - exists body, rv, req. split; [exact Hd|].
    rewrite (controller_run ac r rw body rv req Hd) in H. cbn zeta in H.
    destruct (marshalPatch _) as [pb [e|]]; cbn [snd trace] in H;
      rewrite patches_served in H; cbn in H;
      by apply list_elem_of_singleton in H.
  - rewrite Hrun in H. cbn [snd trace] in H. rewrite Hp in H.
    by apply not_elem_of_nil in H.
Qed.

Lemma single_patch_encoded r adm rw ops :
  EncodePatch ops ∈ trace (Single.doServeAdmitFunc r adm (start rw)).2 ->
  exists body rv req,
    decoded r body rv req /\ singleDecision adm req = (ops, None).
Proof.
  intros H. apply elem_of_patches in H.
  destruct (single_cases r adm rw)
    as [(body & rv & req & Hd) | (msg & t & Hrun & _ & _ & Hp & _)].
  - exists body, rv, req. split; [exact Hd|].
    rewrite (single_run r adm rw body rv req Hd) in H. cbn zeta in H.
    destruct (singleDecision adm req) as [ops' [msg|]].
    + cbn [snd trace] in H. rewrite patches_served in H.
      by apply not_elem_of_nil in H.
    + destruct (marshalPatch ops') as [pb [e|]]; cbn [snd trace] in H;
        rewrite patches_served in H; cbn in H;
        apply list_elem_of_singleton in H; by subst.
  - rewrite Hrun in H. cbn [snd trace] in H. rewrite Hp in H.
    by apply not_elem_of_nil in H.
Qed.

(** encoding/json refuses a list only for one of its elements. *)
Lemma marshalPatch_refused ops pb e :
  marshalPatch ops = (pb, Some e) -> elems ops <> [].
Proof.
  unfold marshalPatch. destruct ops as [[|op l]|]; cbn; discriminate.
Qed.

Lemma controllerInvoked_collected ac req :
  elems (controllerPatchOps ac req) <> [] ->
  exists k, controllerInvoked ac req = S k.
Proof.
  unfold controllerPatchOps, controllerInvoked.
  destruct (isKubeNamespace (Namespace req)); [by intros []|].
  destruct (Controller.admitFuncs ac) as [|f rest]; [by intros []|].
  intros _. simpl. destruct (snd (f req)); eauto.
Qed.

Lemma singleInvoked_collected adm req ops :
  singleDecision adm req = (ops, None) -> elems ops <> [] ->
  singleInvoked req = 1%nat.
Proof.
  unfold singleDecision, singleInvoked.
  destruct (isKubeNamespace (Namespace req)); [|reflexivity].
  intros [= <-]. by intros [].
Qed.

(** X3: when encoding/json refuses the operation list the handler hands it,
    the answer is 500 with the text of the encoder's error, and no review
    envelope is encoded, although registered functions have run: the
    controller has invoked its functions from the first one on, the
    single-function handler its function.  Both revisions. *)
Theorem X3_unencodable_patch ac adm r rw :
  status rw = None ->
  (forall ops pb e,
     EncodePatch ops ∈ trace (Controller.doServeAdmitFunc ac r (start rw)).2 ->
     marshalPatch ops = (pb, Some e) ->
     w (Controller.ServeHTTP ac rw r)
     = {| status := Some StatusInternalServerError;
          written := written rw +:+ "could not marshal JSON patch: " +:+ e |}
     /\ encoded (trace (Controller.ServeHTTP ac rw r)) = []
     /\ exists k,
          invocations (trace (Controller.ServeHTTP ac rw r)) = seq 0 (S k))
  /\
  (forall ops pb e,
     EncodePatch ops ∈ trace (Single.doServeAdmitFunc r adm (start rw)).2 ->
     marshalPatch ops = (pb, Some e) ->
     w (Single.AdmitFuncHandler adm rw r)
     = {| status := Some StatusInternalServerError;
          written := written rw +:+ "could not marshal JSON patch: " +:+ e |}
     /\ encoded (trace (Single.AdmitFuncHandler adm rw r)) = []
     /\ invocations (trace (Single.AdmitFuncHandler adm rw r)) = [0%nat]).
Proof.
  intros Hrw. split.
  - intros ops pb e Hin Hm.
    apply controller_patch_encoded in Hin as (body & rv & req & Hd & ->).
    destruct (controllerInvoked_collected ac req
                (marshalPatch_refused _ _ _ Hm)) as [k Hk].
    unfold Controller.ServeHTTP.
    rewrite (controller_run ac r rw body rv req Hd). cbn zeta. rewrite Hm.
    cbn [w trace]. rewrite encoded_served, invocations_served, Hk.
    split; [by rewrite write_rejected|]. split; [reflexivity|].
    exists k. cbn [invocations omap list_omap]. apply app_nil_r.
  - intros ops pb e Hin Hm.
    apply single_patch_encoded in Hin as (body & rv & req & Hd & Hdec).
    pose proof (singleInvoked_collected adm req ops Hdec
                  (marshalPatch_refused _ _ _ Hm)) as Hk.
    unfold Single.AdmitFuncHandler, Single.serveAdmitFunc.
    rewrite (single_run r adm rw body rv req Hd). cbn zeta. rewrite Hdec, Hm.
    cbn [w trace]. rewrite encoded_served, invocations_served, Hk.
    split; [by rewrite write_rejected|]. split; reflexivity.
Qed.

Lemma controller_review_encoded ac r rw review :
  EncodeReview review ∈ trace (Controller.doServeAdmitFunc ac r (start rw)).2 ->
  (Controller.doServeAdmitFunc ac r (start rw)).1 = encodeResult review
  /\ w (Controller.doServeAdmitFunc ac r (start rw)).2 = rw.
Proof.
  intros H. apply elem_of_encoded in H. revert H.
  destruct (controller_cases ac r rw)
    as [(body & rv & req & Hd) | (msg & t & Hrun & _ & He & _)].
  - rewrite (controller_run ac r rw body rv req Hd). cbn zeta.
    destruct (marshalPatch _) as [pb [e|]]; cbn [fst snd trace w];
      rewrite encoded_served; cbn; intros H.
    + by apply not_elem_of_nil in H.
    + apply list_elem_of_singleton in H. by subst.
  - rewrite Hrun. cbn [snd trace]. rewrite He. intros H.
    by apply not_elem_of_nil in H.
Qed.

Lemma single_review_encoded r adm rw review :
  EncodeReview review ∈ trace (Single.doServeAdmitFunc r adm (start rw)).2 ->
  (Single.doServeAdmitFunc r adm (start rw)).1 = encodeResult review
  /\ w (Single.doServeAdmitFunc r adm (start rw)).2 = rw.
Proof.
  intros H. apply elem_of_encoded in H. revert H.
  destruct (single_cases r adm rw)
    as [(body & rv & req & Hd) | (msg & t & Hrun & _ & He & _)].
  - rewrite (single_run r adm rw body rv req Hd). cbn zeta.
    destruct (singleDecision adm req) as [ops [msg|]].
    + cbn [fst snd trace w]. rewrite encoded_served. cbn. intros H.
      apply list_elem_of_singleton in H. by subst.
    + destruct (marshalPatch ops) as [pb [e|]]; cbn [fst snd trace w];
        rewrite encoded_served; cbn; intros H.
      * by apply not_elem_of_nil in H.
      * apply list_elem_of_singleton in H. by subst.
  - rewrite Hrun. cbn [snd trace]. rewrite He. intros H.
    by apply not_elem_of_nil in H.
Qed.

(** X4: when encoding/json refuses the review envelope, the handler returns
    the error without having set a status; the wrapper then answers 500 with
    the text of the error.  Both revisions. *)
Theorem X4_unencodable_review ac adm r rw :
  status rw = None ->
  (forall review bs e,
     EncodeReview review ∈ trace (Controller.doServeAdmitFunc ac r (start rw)).2 ->
     MarshalReview review = (bs, Some e) ->
     w (Controller.doServeAdmitFunc ac r (start rw)).2 = rw
     /\ w (Controller.ServeHTTP ac rw r)
        = {| status := Some StatusInternalServerError;
             written := written rw +:+ "marshaling response: " +:+ e |})
  /\
  (forall review bs e,
     EncodeReview review ∈ trace (Single.doServeAdmitFunc r adm (start rw)).2 ->
     MarshalReview review = (bs, Some e) ->
     w (Single.doServeAdmitFunc r adm (start rw)).2 = rw
     /\ w (Single.AdmitFuncHandler adm rw r)
        = {| status := Some StatusInternalServerError;
             written := written rw +:+ "marshaling response: " +:+ e |}).
Proof.
  intros Hrw. split.
  - intros review bs e Hin Hm.
    apply controller_review_encoded in Hin as [Hres Hw].
    split; [exact Hw|]. unfold Controller.ServeHTTP.
    destruct (Controller.doServeAdmitFunc ac r (start rw)) as [res st].
    cbn [fst snd] in *. subst res. unfold encodeResult. rewrite Hm.
    cbn [w]. rewrite Hw. by apply write_failed.
  - intros review bs e Hin Hm.
    apply single_review_encoded in Hin as [Hres Hw].
    split; [exact Hw|]. unfold Single.AdmitFuncHandler, Single.serveAdmitFunc.
    destruct (Single.doServeAdmitFunc r adm (start rw)) as [res st].
    cbn [fst snd] in *. subst res. unfold encodeResult. rewrite Hm.
    cbn [w]. rewrite Hw. by apply write_failed.
Qed.

(** What the handler leaves of the writer: untouched when it returns bytes;
    untouched, or with one of three statuses set, when it returns an error. *)
Lemma controller_outcome ac r rw :
  let out := Controller.doServeAdmitFunc ac r (start rw) in
  match out.1 with
  | Ok _ => w out.2 = rw
  | Err _ =>
      w out.2 = rw
      \/ exists code,
           (code = StatusBadRequest \/ code = StatusMethodNotAllowed
            \/ code = StatusInternalServerError)
           /\ w out.2 = writeHeader code rw
  end.
Proof.
  destruct (controller_cases ac r rw)
    as [(body & rv & req & Hd) | (msg & t & Hrun & _)].
  - rewrite (controller_run ac r rw body rv req Hd). cbn zeta.
    destruct (marshalPatch _) as [pb [e|]]; cbn [fst snd w].
    + right. exists StatusInternalServerError. auto.
    + unfold encodeResult. destruct (MarshalReview _) as [bs [e|]]; auto.
  - cbn zeta. rewrite Hrun. cbn [fst snd w]. right. exists (rejection r).
    split; [|reflexivity]. unfold rejection. case_bool_decide; auto.
Qed.

Lemma single_outcome r adm rw :
  let out := Single.doServeAdmitFunc r adm (start rw) in
  match out.1 with
  | Ok _ => w out.2 = rw
  | Err _ =>
      w out.2 = rw
      \/ exists code,
           (code = StatusBadRequest \/ code = StatusMethodNotAllowed
            \/ code = StatusInternalServerError)
           /\ w out.2 = writeHeader code rw
  end.
Proof.
  destruct (single_cases r adm rw)
    as [(body & rv & req & Hd) | (msg & t & Hrun & _)].
  - rewrite (single_run r adm rw body rv req Hd). cbn zeta.
    destruct (singleDecision adm req) as [ops [msg|]].
    + cbn [fst snd w]. unfold encodeResult.
      destruct (MarshalReview _) as [bs [e|]]; auto.
    + destruct (marshalPatch ops) as [pb [e|]]; cbn [fst snd w].
      * right. exists StatusInternalServerError. auto.
      * unfold encodeResult. destruct (MarshalReview _) as [bs [e|]]; auto.
  - cbn zeta. rewrite Hrun. cbn [fst snd w]. right. exists (rejection r).
    split; [|reflexivity]. unfold rejection. case_bool_decide; auto.
Qed.

(** What the wrapper makes of an error, whatever the handler did to a
    fresh writer on the way: a status the handler set stays, and 500 is the
    status only when the handler set none. *)
Lemma write_error code msg rw :
  status rw = None ->
  (write msg (writeHeader StatusInternalServerError rw)
   = {| status := Some (default StatusInternalServerError (status rw));
        written := written rw +:+ msg |})
  /\ (write msg (writeHeader StatusInternalServerError (writeHeader code rw))
      = {| status := Some (default StatusInternalServerError
                             (status (writeHeader code rw)));
           written := written rw +:+ msg |}).
Proof. intros H. unfold write, writeHeader. rewrite H. split; reflexivity. Qed.

(** X5: what the wrapper answers, for every request on a fresh writer.
    When the handler returns bytes it has left the writer alone, and the
    answer is 200 with exactly these bytes as its body.  When it returns an
    error, the body is the text of the error, and the status is the one the
    handler set (400, 405 or 500); the 500 of the wrapper is the status only
    when the handler set none.  Both revisions. *)
Theorem X5_answer ac adm r rw :
  status rw = None ->
  (let out := Controller.doServeAdmitFunc ac r (start rw) in
   let st := Controller.ServeHTTP ac rw r in
   match out.1 with
   | Ok bytes =>
       w out.2 = rw
       /\ w st = {| status := Some StatusOK; written := written rw +:+ bytes |}
   | Err msg =>
       w st = {| status := Some (default StatusInternalServerError
                                   (status (w out.2)));
                 written := written rw +:+ msg |}
       /\ (status (w out.2) = None
           \/ status (w out.2) = Some StatusBadRequest
           \/ status (w out.2) = Some StatusMethodNotAllowed
           \/ status (w out.2) = Some StatusInternalServerError)
   end)
  /\
  (let out := Single.doServeAdmitFunc r adm (start rw) in
   let st := Single.AdmitFuncHandler adm rw r in
   match out.1 with
   | Ok bytes =>
       w out.2 = rw
       /\ w st = {| status := Some StatusOK; written := written rw +:+ bytes |}
   | Err msg =>
       w st = {| status := Some (default StatusInternalServerError
                                   (status (w out.2)));
                 written := written rw +:+ msg |}
       /\ (status (w out.2) = None
           \/ status (w out.2) = Some StatusBadRequest
           \/ status (w out.2) = Some StatusMethodNotAllowed
           \/ status (w out.2) = Some StatusInternalServerError)
   end).
Proof.
  intros Hrw. split.
  - pose proof (controller_outcome ac r rw) as H. cbn zeta in *.
    unfold Controller.ServeHTTP.
    destruct (Controller.doServeAdmitFunc ac r (start rw)) as [[bytes|msg] st].
    + cbn [fst snd w] in *. split; [exact H|]. rewrite H. by apply write_answered.
    + cbn [fst snd w] in *.
      destruct H as [-> | (code & Hcode & ->)].
      * split; [apply (write_error StatusOK msg rw Hrw) | by left].
      * split; [apply (write_error code msg rw Hrw)|].
        rewrite (status_writeHeader code rw Hrw).
        destruct Hcode as [-> | [-> | ->]]; auto.
  - pose proof (single_outcome r adm rw) as H. cbn zeta in *.
    unfold Single.AdmitFuncHandler, Single.serveAdmitFunc.
    destruct (Single.doServeAdmitFunc r adm (start rw)) as [[bytes|msg] st].
    + cbn [fst snd w] in *. split; [exact H|]. rewrite H. by apply write_answered.
    + cbn [fst snd w] in *.
      destruct H as [-> | (code & Hcode & ->)].
      * split; [apply (write_error StatusOK msg rw Hrw) | by left].
      * split; [apply (write_error code msg rw Hrw)|].
        rewrite (status_writeHeader code rw Hrw).
        destruct Hcode as [-> | [-> | ->]]; auto.
Qed.

End Encoders.

(** ** The registered functions *)

Lemma elems_append {A} (s xs : slice A) :
  elems (append s xs) = elems s ++ elems xs.
Proof.
  unfold append. destruct (elems xs) as [|x l] eqn:Hxs.
  - by rewrite app_nil_r.
  - reflexivity.
Qed.

Lemma collected_all_succeed (funcs : list AdmitFunc) req :
  Forall (fun adm : AdmitFunc => snd (adm req) = None) funcs ->
  forall acc, elems (collected funcs req acc) = elems acc ++ operations funcs req.
Proof.
  unfold operations.
  induction 1 as [|adm rest Hadm _ IH]; intros acc; simpl.
  - by rewrite app_nil_r.
  - rewrite Hadm, IH, elems_append, <- app_assoc. reflexivity.
Qed.

Lemma invoked_all_succeed (funcs : list AdmitFunc) req :
  Forall (fun adm : AdmitFunc => snd (adm req) = None) funcs ->
  invoked funcs req = length funcs.
Proof.
  induction 1 as [|adm rest Hadm _ IH]; simpl; [reflexivity|].
  by rewrite Hadm, IH.
Qed.

Lemma invoked_le_length (funcs : list AdmitFunc) req :
  (invoked funcs req <= length funcs)%nat.
Proof.
  induction funcs as [|adm rest IH]; simpl; [lia|].
  destruct (snd (adm req)); lia.
Qed.

(** Behind a function that fails on [req] the list can grow or shrink
    without the loop noticing. *)
Lemma collected_behind_failure (funcs more : list AdmitFunc) req :
  Exists (fun adm : AdmitFunc => snd (adm req) <> None) funcs ->
  forall acc, collected (funcs ++ more) req acc = collected funcs req acc.
Proof.
  induction funcs as [|adm rest IH]; intros Hex acc.
  - by apply Exists_nil in Hex.
  - simpl. destruct (snd (adm req)) eqn:Hadm; [reflexivity|].
    apply IH. apply Exists_cons in Hex as [Hex|Hex]; [congruence | exact Hex].
Qed.

Lemma invoked_behind_failure (funcs more : list AdmitFunc) req :
  Exists (fun adm : AdmitFunc => snd (adm req) <> None) funcs ->
  invoked (funcs ++ more) req = invoked funcs req.
Proof.
  induction funcs as [|adm rest IH]; intros Hex.
  - by apply Exists_nil in Hex.
  - simpl. destruct (snd (adm req)) eqn:Hadm; [reflexivity|].
    f_equal. apply IH.
    apply Exists_cons in Hex as [Hex|Hex]; [congruence | exact Hex].
Qed.

Lemma marshalPatch_present `{Codec} ops pb :
  marshalPatch ops = (pb, None) -> exists s, pb = Some s /\ s <> "".
Proof.
  unfold marshalPatch. destruct ops as [l|].
  - destruct (marshalElements l) as [ss [e|]]; [discriminate|].
    intros [= <-]. eexists. split; [reflexivity | discriminate].
  - intros [= <-]. eexists. split; [reflexivity | discriminate].
Qed.

Section Registered.
Context {codec : Codec}.

(** X6: when every registered function succeeds on a request outside the
    reserved namespaces, each of them is invoked once, in the order of
    registration, and the operation list that is encoded holds their
    operations in that same order. *)
Theorem X6_aggregation_order ac r rw body rv req :
  decoded r body rv req ->
  isKubeNamespace (Namespace req) = false ->
  Forall (fun adm : AdmitFunc => snd (adm req) = None) (Controller.admitFuncs ac) ->
  let out := Controller.doServeAdmitFunc ac r (start rw) in
  invocations (trace out.2) = seq 0 (length (Controller.admitFuncs ac))
  /\ exists ops,
       patches (trace out.2) = [ops]
       /\ elems ops = operations (Controller.admitFuncs ac) req.
Proof.
  intros Hd Hns Hall.
  rewrite (controller_run ac r rw body rv req Hd). cbn zeta.
  unfold controllerPatchOps, controllerInvoked. rewrite Hns.
  rewrite (invoked_all_succeed _ _ Hall).
  destruct (marshalPatch _) as [pb [e|]]; cbn [snd trace];
    rewrite invocations_served, patches_served; cbn;
    (split; [by rewrite app_nil_r|]);
    eexists; (split; [reflexivity|]);
    by rewrite (collected_all_succeed _ _ Hall).
Qed.

(** X7: for every request, the controller invokes a prefix of the
    registered functions, each once and in the order of registration: the
    positions it invokes are 0, 1, ..., k-1 for some k up to the number of
    registered functions.  The single-function handler invokes its function
    at most once. *)
Theorem X7_invocations_in_order ac adm r rw :
  (let t := trace (Controller.doServeAdmitFunc ac r (start rw)).2 in
   exists k, (k <= length (Controller.admitFuncs ac))%nat
             /\ invocations t = seq 0 k)
  /\
  (let t := trace (Single.doServeAdmitFunc r adm (start rw)).2 in
   invocations t = [] \/ invocations t = [0%nat]).
Proof.
  split.
  - destruct (controller_cases ac r rw)
      as [(body & rv & req & Hd) | (msg & t & Hrun & Hi & _)].
    + rewrite (controller_run ac r rw body rv req Hd). cbn zeta.
      exists (controllerInvoked ac req). split.
      * unfold controllerInvoked.
        destruct (isKubeNamespace _); [lia | apply invoked_le_length].
      * destruct (marshalPatch _) as [pb [e|]]; cbn [snd trace];
          rewrite invocations_served; cbn [invocations omap list_omap];
          apply app_nil_r.
    + rewrite Hrun. cbn [snd trace]. rewrite Hi.
      exists 0%nat. split; [lia | reflexivity].
  - destruct (single_cases r adm rw)
      as [(body & rv & req & Hd) | (msg & t & Hrun & Hi & _)].
    + rewrite (single_run r adm rw body rv req Hd). cbn zeta.
      assert (forall tail, invocations tail = [] ->
              invocations (served body (singleInvoked req) req tail) = []
              \/ invocations (served body (singleInvoked req) req tail)
                 = [0%nat]) as Hshape.
      { intros tail Htail. rewrite invocations_served, Htail.
        unfold singleInvoked. destruct (isKubeNamespace _); cbn; auto. }
      destruct (singleDecision adm req) as [ops [msg|]];
        [ | destruct (marshalPatch ops) as [pb [e|]] ];
        cbn [snd trace]; apply Hshape; reflexivity.
    + rewrite Hrun. cbn [snd trace]. rewrite Hi. by left.
Qed.

(** X8: once a registered function fails on a request, registering further
    functions does not change anything about the handling of that request:
    the same bytes or error, the same writer, the same trace. *)
Theorem X8_register_behind_failure ac r rw body rv req (f : AdmitFunc) m name g :
  decoded r body rv req ->
  f ∈ Controller.admitFuncs ac ->
  snd (f req) = Some m ->
  Controller.doServeAdmitFunc (Controller.Register name g ac) r (start rw)
  = Controller.doServeAdmitFunc ac r (start rw).
Proof.
  intros Hd Hin Hf.
  assert (Exists (fun adm : AdmitFunc => snd (adm req) <> None)
                 (Controller.admitFuncs ac)) as Hex.
  { apply Exists_exists. exists f. split; [exact Hin | congruence]. }
  rewrite (controller_run _ r rw body rv req Hd).
  rewrite (controller_run ac r rw body rv req Hd).
  unfold controllerPatchOps, controllerInvoked, Controller.Register.
  cbn [Controller.admitFuncs].
  rewrite (collected_behind_failure _ _ _ Hex).
  rewrite (invoked_behind_failure _ _ _ Hex). reflexivity.
Qed.

(** X14: the first failure ends the collection.  With the functions before
    it succeeding, the controller invokes the functions up to the failing
    one, and the operation list it then encodes holds the operations of the
    functions before the failing one, in order: nothing the failing function
    returned next to its error, and nothing of the functions behind it. *)
Theorem X14_first_failure_ends_collection ac r rw body rv req
    (pre : list AdmitFunc) (f : AdmitFunc) (post : list AdmitFunc) m :
  decoded r body rv req ->
  isKubeNamespace (Namespace req) = false ->
  Controller.admitFuncs ac = pre ++ f :: post ->
  Forall (fun adm : AdmitFunc => snd (adm req) = None) pre ->
  snd (f req) = Some m ->
  let out := Controller.doServeAdmitFunc ac r (start rw) in
  invocations (trace out.2) = seq 0 (S (length pre))
  /\ exists ops,
       patches (trace out.2) = [ops] /\ elems ops = operations pre req.
Proof.
  intros Hd Hns Hfuncs Hpre Hf.
  rewrite (controller_run ac r rw body rv req Hd). cbn zeta.
  unfold controllerPatchOps, controllerInvoked. rewrite Hns, Hfuncs.
  rewrite (invoked_first_failure pre f post req m Hpre Hf).
  rewrite (collected_first_failure pre f post req m None Hpre Hf).
  destruct (marshalPatch _) as [pb [e|]]; cbn [snd trace];
    rewrite invocations_served, patches_served;
    cbn [invocations patches omap list_omap];
    (split; [by rewrite app_nil_r|]);
    eexists; (split; [reflexivity|]);
    by rewrite (collected_all_succeed _ _ Hpre).
Qed.

End Registered.

(** ** The envelope and the decision *)

Section Decisions.
Context {codec : Codec}.

(** X9: for a decoded request, the envelope the controller encodes carries
    the type metadata of the inbound review and an inner request, and the
    handler returns what the encoder makes of it; the envelope of the
    single-function handler carries neither of the two, only the response,
    in the allow and in the deny outcome.  The one run that encodes no
    envelope is the one where encoding/json refuses the operation list the
    handler hands it. *)
Theorem X9_envelope_echo ac adm r rw body rv req :
  decoded r body rv req ->
  (let out := Controller.doServeAdmitFunc ac r (start rw) in
   exists ops,
     patches (trace out.2) = [ops]
     /\ match marshalPatch ops with
        | (_, Some e) => encoded (trace out.2) = []
        | (_, None) =>
            exists review,
              encoded (trace out.2) = [review]
              /\ TypeMeta review = TypeMeta rv
              /\ is_Some (Request review)
              /\ out.1 = encodeResult review
        end)
  /\
  (let out := Single.doServeAdmitFunc r adm (start rw) in
   match singleDecision adm req with
   | (_, Some msg) =>
       exists review,
         encoded (trace out.2) = [review]
         /\ TypeMeta review = zero_TypeMeta /\ Request review = None
         /\ out.1 = encodeResult review
   | (ops, None) =>
       patches (trace out.2) = [ops]
       /\ match marshalPatch ops with
          | (_, Some e) => encoded (trace out.2) = []
          | (_, None) =>
              exists review,
                encoded (trace out.2) = [review]
                /\ TypeMeta review = zero_TypeMeta /\ Request review = None
                /\ out.1 = encodeResult review
          end
   end).
Proof.
  intros Hd. split.
  - rewrite (controller_run ac r rw body rv req Hd). cbn zeta.
    exists (controllerPatchOps ac req).
    destruct (marshalPatch _) as [pb [e|]]; cbn [fst snd trace];
      rewrite patches_served, encoded_served.
    + split; reflexivity.
    + split; [reflexivity|]. eexists. repeat split. by eexists.
  - rewrite (single_run r adm rw body rv req Hd). cbn zeta.
    destruct (singleDecision adm req) as [ops [msg|]].
    + cbn [fst snd trace]. rewrite encoded_served. eexists. repeat split.
    + destruct (marshalPatch ops) as [pb [e|]]; cbn [fst snd trace];
        rewrite patches_served, encoded_served.
      * split; reflexivity.
      * split; [reflexivity|]. eexists. repeat split.
Qed.

Lemma isKubeNamespace_other ns :
  ns <> NamespacePublic -> ns <> NamespaceSystem -> isKubeNamespace ns = false.
Proof.
  intros Hp Hs. unfold isKubeNamespace.
  by rewrite !bool_decide_eq_false_2.
Qed.

(** X10: the guard exempts the two reserved namespaces and nothing else.
    For a decoded request in any other namespace (the empty one included)
    the single-function handler invokes its function, and the controller
    invokes the first registered function, on the inner request. *)
Theorem X10_other_namespaces_are_served ac adm r rw body rv req :
  decoded r body rv req ->
  Namespace req <> NamespacePublic -> Namespace req <> NamespaceSystem ->
  (forall f rest, Controller.admitFuncs ac = f :: rest ->
     Invoke 0 req ∈ trace (Controller.doServeAdmitFunc ac r (start rw)).2)
  /\ Invoke 0 req ∈ trace (Single.doServeAdmitFunc r adm (start rw)).2.
Proof.
  intros Hd Hp Hs. pose proof (isKubeNamespace_other _ Hp Hs) as Hns.
  assert (forall n tail, Invoke 0 req ∈ served body (S n) req tail) as Hin.
  { intros n tail. unfold served. rewrite invokes_S.
    apply elem_of_app. right. apply list_elem_of_here. }
  split.
  - intros f rest Hfuncs.
    rewrite (controller_run ac r rw body rv req Hd). cbn zeta.
    unfold controllerInvoked. rewrite Hns, Hfuncs.
    assert (exists n, invoked (f :: rest) req = S n) as [n ->].
    { simpl. destruct (snd (f req)); eauto. }
    destruct (marshalPatch _) as [pb [e|]]; cbn [snd trace]; apply Hin.
  - rewrite (single_run r adm rw body rv req Hd). cbn zeta.
    unfold singleInvoked. rewrite Hns.
    destruct (singleDecision adm req) as [ops [msg|]];
      [ | destruct (marshalPatch ops) as [pb [e|]] ];
      cbn [snd trace]; apply Hin.
Qed.

(** X11: every response the controller hands to the encoder, for any
    request and any registered functions, is an allow that carries a patch
    and the patch type JSONPatch, and no result message: no run of the
    controller reaches the deny branch. *)
Theorem X11_controller_always_allows ac r rw :
  Forall (fun resp => Allowed resp = true /\ Result resp = None
                      /\ hasPatch resp = true
                      /\ PatchType resp = Some PatchTypeJSONPatch)
         (responses (trace (Controller.ServeHTTP ac rw r))).
Proof.
  unfold Controller.ServeHTTP.
  assert (Forall (fun resp => Allowed resp = true /\ Result resp = None
                              /\ hasPatch resp = true
                              /\ PatchType resp = Some PatchTypeJSONPatch)
            (responses (trace (Controller.doServeAdmitFunc ac r (start rw)).2)))
    as H.
  { destruct (controller_cases ac r rw)
      as [(body & rv & req & Hd) | (msg & t & Hrun & _ & He & _)].
    - rewrite (controller_run ac r rw body rv req Hd). cbn zeta.
      destruct (marshalPatch _) as [pb [e|]] eqn:Hm; cbn [snd trace];
        rewrite responses_served; cbn; [constructor|].
      apply marshalPatch_present in Hm as (s & -> & Hs).
      constructor; [|constructor]. repeat split.
      unfold hasPatch. cbn. by rewrite bool_decide_eq_false_2.
    - rewrite Hrun. cbn [snd trace]. unfold responses. rewrite He. constructor. }
  destruct (Controller.doServeAdmitFunc ac r (start rw)) as [[bs|msg] st];
    exact H.
Qed.

(** X12: in the single-function handler an error wins over operations.  When
    the function returns an error, with or without operations next to it,
    the operations are never encoded and the one response is the deny with
    the message of the error. *)
Theorem X12_error_wins_over_operations r adm rw body rv req ops msg :
  decoded r body rv req ->
  isKubeNamespace (Namespace req) = false ->
  adm req = (ops, Some msg) ->
  let out := Single.doServeAdmitFunc r adm (start rw) in
  invocations (trace out.2) = [0%nat]
  /\ patches (trace out.2) = []
  /\ responses (trace out.2)
     = [{| RespUID := UID req; Allowed := false;
           Result := Some {| Message := msg |};
           Patch := None; PatchType := None |}]
  /\ w out.2 = rw.
Proof.
  intros Hd Hns Hadm.
  rewrite (single_run r adm rw body rv req Hd). cbn zeta.
  unfold singleDecision, singleInvoked. rewrite Hns, Hadm. cbn [snd trace w].
  rewrite invocations_served, patches_served, responses_served.
  repeat split.
Qed.

End Decisions.

(** ** Registration *)

(** X13: registration keeps what is registered and adds at the end: after a
    sequence of [Register] calls the controller holds the functions it had,
    followed by the new ones in the order of the calls.  The names play no
    part. *)
Theorem X13_registration_order l ac :
  Controller.admitFuncs (registerAll l ac)
  = Controller.admitFuncs ac ++ map snd l.
Proof.
  unfold registerAll. revert ac.
  induction l as [|[name adm] l IH]; intros ac; simpl.
  - by rewrite app_nil_r.
  - rewrite IH. cbn [Controller.Register Controller.admitFuncs].
    by rewrite <- app_assoc.
Qed.

(** ** The further properties, at concrete requests *)

Section Further_runs_on_fixtures.
Import Fixtures.
#[local] Existing Instance Fixtures.codec.

Lemma X1_content_type_rejected_witness :
  Controller.ServeHTTP labels freshWriter
    (postAs "application/json; charset=utf-8" "review:default")
  = {| w := {| status := Some StatusBadRequest;
               written := "unsupported content type application/json; charset=utf-8, only application/json is supported" |};
       trace := [ReadBody] |}
  /\ Single.AdmitFuncHandler addLabel freshWriter (untyped "review:default")
     = {| w := {| status := Some StatusBadRequest;
                  written := "unsupported content type , only application/json is supported" |};
          trace := [ReadBody] |}.
Proof.
  split.
  - refine (proj1 (X1_content_type_rejected labels addLabel
                     (postAs "application/json; charset=utf-8" "review:default")
                     freshWriter "review:default" eq_refl eq_refl _ eq_refl)).
    vm_compute. discriminate.
  - refine (proj2 (X1_content_type_rejected labels addLabel
                     (untyped "review:default")
                     freshWriter "review:default" eq_refl eq_refl _ eq_refl)).
    vm_compute. discriminate.
Defined.

Lemma X2_unreadable_body_rejected_witness :
  Controller.ServeHTTP labels freshWriter truncated
  = {| w := {| status := Some StatusBadRequest;
               written := "could not read request body: unexpected EOF" |};
       trace := [ReadBody] |}.
Proof.
  exact (proj1 (X2_unreadable_body_rejected labels addLabel truncated
                  freshWriter "review:def" "unexpected EOF"
                  eq_refl eq_refl eq_refl)).
Defined.

Lemma X3_unencodable_patch_witness :
  w (Controller.ServeHTTP labelThenLeak freshWriter (post "review:default"))
  = {| status := Some StatusInternalServerError;
       written := "could not marshal JSON patch: json: unsupported type: chan int" |}
  /\ encoded (trace (Controller.ServeHTTP labelThenLeak freshWriter
                       (post "review:default"))) = []
  /\ exists k,
       invocations (trace (Controller.ServeHTTP labelThenLeak freshWriter
                             (post "review:default"))) = seq 0 (S k).
Proof.
  refine (proj1 (X3_unencodable_patch labelThenLeak leak (post "review:default")
                   freshWriter eq_refl)
            (Some [opA; opChan]) None "json: unsupported type: chan int" _ eq_refl).
  vm_compute. do 4 apply list_elem_of_further. apply list_elem_of_here.
Defined.

Lemma X4_unencodable_review_witness :
  w (Controller.doServeAdmitFunc (codec := refusing) Controller.New
       (post "review:default") (start freshWriter)).2 = freshWriter
  /\ w (Controller.ServeHTTP (codec := refusing) Controller.New freshWriter
          (post "review:default"))
     = {| status := Some StatusInternalServerError;
          written := "marshaling response: json: error calling MarshalJSON for type runtime.RawExtension" |}.
Proof.
  refine (proj1 (X4_unencodable_review (codec := refusing) Controller.New nothing
                   (post "review:default") freshWriter eq_refl)
            (controllerAllow (review "705ab4f5" "default") defaultRequest
               (Some "null"))
            "" "json: error calling MarshalJSON for type runtime.RawExtension"
            _ eq_refl).
  vm_compute. do 3 apply list_elem_of_further. apply list_elem_of_here.
Defined.

Lemma X5_answer_witness :
  w (Controller.ServeHTTP labels freshWriter (post "review:default"))
  = {| status := Some StatusOK; written := "{uid:705ab4f5,allowed:true}" |}
  /\ w (Controller.ServeHTTP labels freshWriter get)
     = {| status := Some StatusMethodNotAllowed;
          written := "invalid method GET, only POST requests are allowed" |}
  /\ w (Single.AdmitFuncHandler (codec := refusing) quota freshWriter
          (post "review:default"))
     = {| status := Some StatusInternalServerError;
          written := "marshaling response: json: error calling MarshalJSON for type runtime.RawExtension" |}.
Proof.
  split; [|split].
  - exact (proj2 (proj1 (X5_answer labels quota (post "review:default")
                           freshWriter eq_refl))).
  - exact (proj1 (proj1 (X5_answer labels quota get freshWriter eq_refl))).
  - exact (proj1 (proj2 (X5_answer (codec := refusing) labels quota
                           (post "review:default") freshWriter eq_refl))).
Defined.

Lemma X6_aggregation_order_witness :
  let out := Controller.doServeAdmitFunc labels (post "review:default")
               (start freshWriter) in
  invocations (trace out.2) = [0%nat; 1%nat]
  /\ exists ops, patches (trace out.2) = [ops] /\ elems ops = [opA; opB].
Proof.
  apply (X6_aggregation_order labels (post "review:default") freshWriter
           "review:default" (review "705ab4f5" "default") defaultRequest
           decoded_default eq_refl).
  repeat constructor.
Defined.

Lemma X8_register_behind_failure_witness :
  Controller.doServeAdmitFunc labelThenQuota (post "review:default")
    (start freshWriter)
  = Controller.doServeAdmitFunc
      (Controller.Register "quota" quota
         (Controller.Register "add-label" addLabel Controller.New))
      (post "review:default") (start freshWriter).
Proof.
  apply (X8_register_behind_failure
           (Controller.Register "quota" quota
              (Controller.Register "add-label" addLabel Controller.New))
           (post "review:default") freshWriter "review:default"
           (review "705ab4f5" "default") defaultRequest quota "quota exceeded"
           "drop-label" dropLabel decoded_default).
  - apply list_elem_of_further, list_elem_of_here.
  - reflexivity.
Defined.

Lemma X9_envelope_echo_witness :
  (let out := Controller.doServeAdmitFunc labels (post "review:default")
                (start freshWriter) in
   exists rv, encoded (trace out.2) = [rv]
              /\ TypeMeta rv = {| Kind := "AdmissionReview";
                                  APIVersion := "admission.k8s.io/v1" |}
              /\ is_Some (Request rv)
              /\ out.1 = encodeResult rv)
  /\
  (let out := Single.doServeAdmitFunc (post "review:default") quota
                (start freshWriter) in
   exists rv, encoded (trace out.2) = [rv]
              /\ TypeMeta rv = zero_TypeMeta /\ Request rv = None
              /\ out.1 = encodeResult rv).
Proof.
  destruct (X9_envelope_echo labels quota (post "review:default") freshWriter
              "review:default" (review "705ab4f5" "default") defaultRequest
              decoded_default) as [(ops & Hops & Hc) Hs].
  split.
  - injection Hops as <-. exact Hc.
  - exact Hs.
Defined.

Lemma X10_other_namespaces_are_served_witness :
  Invoke 0 defaultRequest
    ∈ trace (Single.doServeAdmitFunc (post "review:default") addLabel
               (start freshWriter)).2.
Proof.
  refine (proj2 (X10_other_namespaces_are_served labels addLabel
                   (post "review:default") freshWriter "review:default"
                   (review "705ab4f5" "default") defaultRequest
                   decoded_default _ _)); discriminate.
Defined.

Lemma X12_error_wins_over_operations_witness :
  let out := Single.doServeAdmitFunc (post "review:default") both
               (start freshWriter) in
  invocations (trace out.2) = [0%nat]
  /\ patches (trace out.2) = []
  /\ responses (trace out.2)
     = [{| RespUID := "705ab4f5"; Allowed := false;
           Result := Some {| Message := "quota exceeded" |};
           Patch := None; PatchType := None |}]
  /\ w out.2 = freshWriter.
Proof.
  exact (X12_error_wins_over_operations (post "review:default") both freshWriter
           "review:default" (review "705ab4f5" "default") defaultRequest
           (Some [opA]) "quota exceeded" decoded_default eq_refl eq_refl).
Defined.

Lemma X14_first_failure_ends_collection_witness :
  let out := Controller.doServeAdmitFunc
               (registerAll [("add-label", addLabel); ("both", both);
                             ("drop-label", dropLabel)] Controller.New)
               (post "review:default") (start freshWriter) in
  invocations (trace out.2) = [0%nat; 1%nat]
  /\ exists ops, patches (trace out.2) = [ops] /\ elems ops = [opA].
Proof.
  apply (X14_first_failure_ends_collection
           (registerAll [("add-label", addLabel); ("both", both);
                         ("drop-label", dropLabel)] Controller.New)
           (post "review:default") freshWriter "review:default"
           (review "705ab4f5" "default") defaultRequest
           [addLabel] both [dropLabel] "quota exceeded"
           decoded_default eq_refl eq_refl).
  - repeat constructor.
  - reflexivity.
Defined.

End Further_runs_on_fixtures.
